(** * QR attendance backend: a shallow embedding of [backend/server.py]

    The FastAPI handlers of the attendance server are embedded as functions
    in a state-and-exception monad over a document store.  Every collection
    of the MongoDB database is a list of documents in insertion order; the
    position of a document in its collection plays the part of its [_id].
    The store hands a document back as it was inserted; [find_one] returns
    the first match in insertion order.  What the server draws from outside
    (the wall clock, [uuid.uuid4], [random.random], SHA-256, the JWT library,
    the QR renderer and [datetime.fromisoformat]) is gathered in an
    environment record, and a world counts how many clock readings, UUIDs
    and random numbers were drawn so far. *)

From Stdlib Require Import ZArith NArith List String Ascii Bool Lia.
From stdpp Require Import base tactics option list strings relations.

Local Open Scope string_scope.
Local Open Scope Z_scope.

(** ** Time *)

(** A [datetime] is the number of microseconds since the epoch. *)
Abbreviation datetime := Z.

Definition timedelta_minutes (m : Z) : Z := m * 60 * 1000000.
Definition timedelta_days (d : Z) : Z := d * 86400 * 1000000.

Definition ACCESS_TOKEN_EXPIRE_MINUTES : Z := 1440.

(** [datetime.combine(t.date(), datetime.min.time())]: midnight of the day
    of [t]. *)
Definition day_start (t : datetime) : datetime :=
  (t / timedelta_days 1) * timedelta_days 1.

(** ** Exceptions and results *)

Inductive exn : Type :=
| HTTPException (status_code : nat) (detail : string)
| KeyError (key : string)
| IndexError (msg : string)
| TypeError (msg : string)
| ValueError (msg : string).

Inductive result (A : Type) : Type :=
| Ok (a : A)
| Raise (e : exn).
Arguments Ok {A} a.
Arguments Raise {A} e.

Definition HTTP_401_UNAUTHORIZED : nat := 401%nat.
Definition HTTP_403_FORBIDDEN : nat := 403%nat.

(** ** Models *)

Module UserRole.
Definition SUPERADMIN : string := "superadmin".
Definition SUBADMIN : string := "subadmin".
Definition CLASS_TEACHER : string := "class_teacher".
Definition SUB_TEACHER : string := "sub_teacher".
Definition STUDENT : string := "student".
End UserRole.

Module User.
Record t : Type := mk {
  id : string;
  email : string;
  username : string;
  role : string;
  department_id : option string;
  class_id : option string;
  roll_no : option string;
  working_time : option string;
  created_at : datetime;
  is_active : bool }.
End User.

Module UserCreate.
Record t : Type := mk {
  email : string;
  username : string;
  password : string;
  role : string;
  department_id : option string;
  class_id : option string;
  roll_no : option string;
  working_time : option string }.

(** [student_data.role = r] and [student_data.class_id = c] *)
Definition set_role (r : string) (d : t) : t :=
  mk (email d) (username d) (password d) r (department_id d) (class_id d)
     (roll_no d) (working_time d).
Definition set_class_id (c : option string) (d : t) : t :=
  mk (email d) (username d) (password d) (role d) (department_id d) c
     (roll_no d) (working_time d).
End UserCreate.

Module UserLogin.
Record t : Type := mk { email : string; password : string }.
End UserLogin.

Module StudentLogin.
Record t : Type := mk { roll_no : string; email : string }.
End StudentLogin.

Module Department.
Record t : Type := mk {
  id : string;
  name : string;
  created_at : datetime;
  created_by : string }.
End Department.

Module Class.
Record t : Type := mk {
  id : string;
  name : string;
  department_id : string;
  created_at : datetime;
  created_by : string }.
End Class.

Module Schedule.
Record t : Type := mk {
  id : string;
  class_id : string;
  teacher_id : string;
  subject : string;
  start_time : string;
  end_time : string;
  day_of_week : string;
  created_at : datetime }.
End Schedule.

(** The body of [POST /schedules] before validation: [id] and [created_at]
    may be left out, and the model's default factories then fill them. *)
Module ScheduleBody.
Record t : Type := mk {
  id : option string;
  class_id : string;
  teacher_id : string;
  subject : string;
  start_time : string;
  end_time : string;
  day_of_week : string;
  created_at : option datetime }.
End ScheduleBody.

Module QRSession.
Record t : Type := mk {
  id : string;
  class_id : string;
  teacher_id : string;
  subject : string;
  qr_code : string;
  expires_at : datetime;
  created_at : datetime }.
End QRSession.

Module OTPRequest.
Record t : Type := mk {
  student_id : string;
  qr_session_id : string;
  otp : string;
  expires_at : datetime;
  verified : bool;
  created_at : datetime }.

(** [{"$set": {"verified": True}}] *)
Definition set_verified (c : t) : t :=
  mk (student_id c) (qr_session_id c) (otp c) (expires_at c) true (created_at c).
End OTPRequest.

Module Attendance.
Record t : Type := mk {
  id : string;
  student_id : string;
  class_id : string;
  teacher_id : string;
  subject : string;
  date : datetime;
  status : string;
  qr_session_id : string;
  created_at : datetime }.
End Attendance.

Module Token.
Record t : Type := mk {
  access_token : string;
  token_type : string;
  user : User.t }.
End Token.

Module QRCodeResponse.
Record t : Type := mk {
  qr_code_base64 : string;
  session_id : string;
  expires_at : datetime }.
End QRCodeResponse.

Module OTPVerification.
Record t : Type := mk { qr_session_id : string; otp : string }.
End OTPVerification.

(** ** Documents of the [users] collection

    A user document is a dictionary.  The documents written by
    [register_user] and [add_student] carry every key of [User]; the one
    written by [create_default_admin] has no [department_id], [class_id],
    [roll_no] or [working_time] key, and only [register_user] and
    [create_default_admin] write a [hashed_password].  A key that may be
    missing is an [option]: [None] is the missing key, [Some v] the stored
    value (itself [None] for a stored null). *)
Module UserDoc.
Record t : Type := mk {
  id : string;
  email : string;
  username : string;
  role : string;
  department_id : option (option string);
  class_id : option (option string);
  roll_no : option (option string);
  working_time : option (option string);
  created_at : datetime;
  is_active : bool;
  hashed_password : option string }.
End UserDoc.

(** [user_obj.dict()] *)
Definition User_dict (u : User.t) (hashed_password : option string) : UserDoc.t :=
  UserDoc.mk (User.id u) (User.email u) (User.username u) (User.role u)
    (Some (User.department_id u)) (Some (User.class_id u))
    (Some (User.roll_no u)) (Some (User.working_time u))
    (User.created_at u) (User.is_active u) hashed_password.

(** The [User] model built from a stored document: a missing optional key
    takes its default [None], extra keys are ignored. *)
Definition User_of_doc (d : UserDoc.t) : User.t :=
  User.mk (UserDoc.id d) (UserDoc.email d) (UserDoc.username d) (UserDoc.role d)
    (default None (UserDoc.department_id d)) (default None (UserDoc.class_id d))
    (default None (UserDoc.roll_no d)) (default None (UserDoc.working_time d))
    (UserDoc.created_at d) (UserDoc.is_active d).

(** A MongoDB equality condition on an optional string key: a query value
    of null matches a stored null and a missing key. *)
Definition mongo_eq (q : option string) (stored : option (option string)) : Prop :=
  match q with
  | None => default None stored = None
  | Some v => stored = Some (Some v)
  end.

Global Instance mongo_eq_dec q stored : Decision (mongo_eq q stored).
Proof. destruct q; simpl; apply _. Defined.

(** ** The document store *)

Record Store : Type := mkStore {
  users : list UserDoc.t;
  departments : list Department.t;
  classes : list Class.t;
  schedules : list Schedule.t;
  qr_sessions : list QRSession.t;
  otp_requests : list OTPRequest.t;
  attendance : list Attendance.t }.

Definition empty_store : Store := mkStore [] [] [] [] [] [] [].

Definition with_users (f : list UserDoc.t → list UserDoc.t) (s : Store) : Store :=
  mkStore (f (users s)) (departments s) (classes s) (schedules s)
          (qr_sessions s) (otp_requests s) (attendance s).
Definition with_departments (f : list Department.t → list Department.t) (s : Store) : Store :=
  mkStore (users s) (f (departments s)) (classes s) (schedules s)
          (qr_sessions s) (otp_requests s) (attendance s).
Definition with_classes (f : list Class.t → list Class.t) (s : Store) : Store :=
  mkStore (users s) (departments s) (f (classes s)) (schedules s)
          (qr_sessions s) (otp_requests s) (attendance s).
Definition with_schedules (f : list Schedule.t → list Schedule.t) (s : Store) : Store :=
  mkStore (users s) (departments s) (classes s) (f (schedules s))
          (qr_sessions s) (otp_requests s) (attendance s).
Definition with_qr_sessions (f : list QRSession.t → list QRSession.t) (s : Store) : Store :=
  mkStore (users s) (departments s) (classes s) (schedules s)
          (f (qr_sessions s)) (otp_requests s) (attendance s).
Definition with_otp_requests (f : list OTPRequest.t → list OTPRequest.t) (s : Store) : Store :=
  mkStore (users s) (departments s) (classes s) (schedules s)
          (qr_sessions s) (f (otp_requests s)) (attendance s).
Definition with_attendance (f : list Attendance.t → list Attendance.t) (s : Store) : Store :=
  mkStore (users s) (departments s) (classes s) (schedules s)
          (qr_sessions s) (otp_requests s) (f (attendance s)).

(** [insert_one]: the new document goes to the end of its collection. *)
Definition insert_one {A : Type} (doc : A) (c : list A) : list A := c ++ [doc].

(** ** The environment *)

Record Env : Type := mkEnv {
  (** the [i]-th reading of [datetime.now(timezone.utc)] *)
  wall_clock : nat → datetime;
  (** the 128 random bits behind the [i]-th [uuid.uuid4()] *)
  urandom128 : nat → N;
  (** the 53 random bits behind the [i]-th [random.random()] *)
  random53 : nat → N;
  (** [hashlib.sha256(s.encode()).hexdigest()] *)
  sha256_hexdigest : string → string;
  (** [jwt.encode({"sub": sub, "exp": exp}, SECRET_KEY, ALGORITHM)] *)
  jwt_encode : string → datetime → string;
  (** [jwt.decode(token, SECRET_KEY, [ALGORITHM])] at a given time: [None]
      is a [JWTError], [Some sub] the decoded payload's [get("sub")] *)
  jwt_decode : string → datetime → option (option string);
  (** the base64 text of the PNG that the [qrcode] library renders *)
  qr_png_base64 : string → string;
  (** [datetime.fromisoformat]; [None] is its [ValueError] *)
  fromisoformat : string → option datetime }.

(** ** The world: the store, what was drawn so far, the queue and the log *)

Record World : Type := mkWorld {
  db : Store;
  clock_reads : nat;
  uuid_draws : nat;
  random_draws : nat;
  (** the [(email, otp)] arguments of the queued [send_otp_email] tasks *)
  background_tasks : list (string * string);
  log : list string }.

Definition with_db (f : Store → Store) (w : World) : World :=
  mkWorld (f (db w)) (clock_reads w) (uuid_draws w) (random_draws w)
          (background_tasks w) (log w).

(** ** The monad of the handlers *)

Definition M (A : Type) : Type := World → result A * World.

Definition ret {A : Type} (a : A) : M A := λ w, (Ok a, w).

Definition raise {A : Type} (e : exn) : M A := λ w, (Raise e, w).

Definition bind {A B : Type} (m : M A) (k : A → M B) : M B :=
  λ w, match m w with
       | (Ok a, w') => k a w'
       | (Raise e, w') => (Raise e, w')
       end.

Notation "'let*' x ':=' m 'in' k" := (bind m (λ x, k))
  (at level 10, x name, m at level 100, k at level 200, only parsing).
Notation "m ';;' k" := (bind m (λ _, k))
  (at level 100, k at level 200, right associativity, only parsing).

(** Reading a collection, and replacing one. *)
Definition query {A : Type} (f : Store → A) : M A := λ w, (Ok (f (db w)), w).
Definition update (f : Store → Store) : M unit := λ w, (Ok tt, with_db f w).

(** [logger.info(msg)] *)
Definition logger_info (msg : string) : M unit :=
  λ w, (Ok tt, mkWorld (db w) (clock_reads w) (uuid_draws w) (random_draws w)
                       (background_tasks w) (log w ++ [msg])).

(** [background_tasks.add_task(send_otp_email, email, otp)] *)
Definition add_task (email otp : string) : M unit :=
  λ w, (Ok tt, mkWorld (db w) (clock_reads w) (uuid_draws w) (random_draws w)
                       (background_tasks w ++ [(email, otp)]) (log w)).

(** ** [uuid.UUID]: version bits and text form *)

(** [uuid.uuid4()] is [UUID(bytes=os.urandom(16), version=4)]: the variant
    and version bits of the 128 random bits are overwritten. *)
Definition uuid4_int (r : N) : N :=
  let i := (r mod 2 ^ 128)%N in
  let i := N.ldiff i (N.shiftl 0xc000 48) in
  let i := N.lor i (N.shiftl 0x8000 48) in
  let i := N.ldiff i (N.shiftl 0xf000 64) in
  N.lor i (N.shiftl 4 76).

Definition hexdigits : list ascii := list_ascii_of_string "0123456789abcdef".

Definition hex_digit (d : N) : ascii := default "0"%char (hexdigits !! N.to_nat d).

(** The [k] lowest hexadecimal digits of [n], most significant first:
    ['%0kx' % n] for [n < 16 ^ k]. *)
Fixpoint hex (k : nat) (n : N) : list ascii :=
  match k with
  | O => []
  | S k' => hex k' (n / 16)%N ++ [hex_digit (n mod 16)%N]
  end.

(** [str(UUID(int=i))]: the 32 digits in groups of 8-4-4-4-12. *)
Definition UUID_str (i : N) : string :=
  let h := hex 32 i in
  string_of_list_ascii
    (take 8 h ++ "-"%char :: take 4 (drop 8 h) ++ "-"%char ::
     take 4 (drop 12 h) ++ "-"%char :: take 4 (drop 16 h) ++ "-"%char ::
     drop 20 h).

(** [string.digits] *)
Definition string_digits : list ascii := list_ascii_of_string "0123456789".

(** [class_id] and the like used as a condition: [None] and the empty
    string are false. *)
Definition truthy (o : option string) : option string :=
  match o with
  | Some s => if decide (s = "") then None else Some s
  | None => None
  end.

(** ** Responses that are plain dictionaries *)

Module RootResponse.
Record t : Type := mk { message : string; status : string }.
End RootResponse.

Module ScanResponse.
Record t : Type := mk { message : string; expires_in : string }.
End ScanResponse.

Module VerifyResponse.
Record t : Type := mk { message : string }.
End VerifyResponse.

(** An attendance document with the three keys the report adds;
    [student_roll_no] is the stored roll number (possibly null) or
    ["Unknown"]. *)
Module EnrichedRecord.
Record t : Type := mk {
  record : Attendance.t;
  student_name : string;
  student_roll_no : option string;
  class_name : string }.
End EnrichedRecord.

Inductive Dashboard : Type :=
| StudentDashboard (role : string) (today_attendance : nat) (class_id : option string)
| TeacherDashboard (role : string) (today_attendance_marked : nat) (class_id : option string)
| AdminDashboard (role : string) (total_students total_classes today_attendance : nat).

Section Server.

Context (env : Env).

(** ** Utility functions *)

(** [datetime.now(timezone.utc)] *)
Definition now : M datetime :=
  λ w, (Ok (wall_clock env (clock_reads w)),
        mkWorld (db w) (S (clock_reads w)) (uuid_draws w) (random_draws w)
                (background_tasks w) (log w)).

(** [str(uuid.uuid4())] *)
Definition uuid4 : M string :=
  λ w, (Ok (UUID_str (uuid4_int (urandom128 env (uuid_draws w)))),
        mkWorld (db w) (clock_reads w) (S (uuid_draws w)) (random_draws w)
                (background_tasks w) (log w)).

(** [random.random()], as the numerator of a fraction over [2 ^ 53] *)
Definition random_random : M N :=
  λ w, (Ok (random53 env (random_draws w) mod 2 ^ 53)%N,
        mkWorld (db w) (clock_reads w) (uuid_draws w) (S (random_draws w))
                (background_tasks w) (log w)).

(** [random.choices(population, k=k)]:
    [[population[floor(random() * n)] for i in range(k)]] *)
Fixpoint random_choices (population : list ascii) (k : nat) : M (list ascii) :=
  match k with
  | O => ret []
  | S k' =>
      let* r := random_random in
      match population !! N.to_nat (r * N.of_nat (length population) / 2 ^ 53)%N with
      | None => raise (IndexError "list index out of range")
      | Some c =>
          let* rest := random_choices population k' in
          ret (c :: rest)
      end
  end.

Definition get_password_hash (password : string) : string :=
  sha256_hexdigest env password.

Definition verify_password (plain_password hashed_password : string) : bool :=
  bool_decide (get_password_hash plain_password = hashed_password).

(** [data] is always [{"sub": sub}]; a zero [expires_delta] is false. *)
Definition create_access_token (sub : string) (expires_delta : option Z) : M string :=
  let* t := now in
  let expire :=
    match expires_delta with
    | Some d => if decide (d = 0) then t + timedelta_minutes ACCESS_TOKEN_EXPIRE_MINUTES
                else t + d
    | None => t + timedelta_minutes ACCESS_TOKEN_EXPIRE_MINUTES
    end in
  ret (jwt_encode env sub expire).

Definition credentials_exception : exn :=
  HTTPException HTTP_401_UNAUTHORIZED "Could not validate credentials".

(** The JWT library checks the token's [exp] against the clock it reads. *)
Definition get_current_user (credentials : string) : M User.t :=
  let* t := now in
  match jwt_decode env credentials t with
  | None => raise credentials_exception
  | Some None => raise credentials_exception
  | Some (Some user_id) =>
      let* user := query (λ s, list_find (λ d, UserDoc.id d = user_id) (users s)) in
      match user with
      | None => raise credentials_exception
      | Some (_, d) => ret (User_of_doc d)
      end
  end.

Definition generate_otp : M string :=
  let* cs := random_choices string_digits 6 in
  ret (string_of_list_ascii cs).

Definition generate_qr_code (data : string) : string :=
  "data:image/png;base64," ++ qr_png_base64 env data.

(** The mock email service: it logs and reports success. *)
Definition send_otp_email (email otp : string) : M bool :=
  logger_info ("📧 MOCK EMAIL: Sending OTP " ++ otp ++ " to " ++ email) ;;
  ret true.

Definition require_role (allowed_roles : list string) (credentials : string) : M User.t :=
  let* current_user := get_current_user credentials in
  if decide (User.role current_user ∈ allowed_roles) then ret current_user
  else raise (HTTPException HTTP_403_FORBIDDEN "Not enough permissions").

(** The [User] model built from a validated [UserCreate] without its
    password: [id], [created_at] and [is_active] take their defaults. *)
Definition User_new (d : UserCreate.t) : M User.t :=
  let* id := uuid4 in
  let* created_at := now in
  ret (User.mk id (UserCreate.email d) (UserCreate.username d) (UserCreate.role d)
         (UserCreate.department_id d) (UserCreate.class_id d)
         (UserCreate.roll_no d) (UserCreate.working_time d) created_at true).

(** ** Root and authentication endpoints *)

Definition root : M RootResponse.t :=
  ret (RootResponse.mk "QR Attendance System API" "running").

Definition register_user (user_data : UserCreate.t) (credentials : string) : M User.t :=
  let* current_user :=
    require_role [UserRole.SUPERADMIN; UserRole.SUBADMIN] credentials in
  let* existing_user :=
    query (λ s, list_find (λ d, UserDoc.email d = UserCreate.email user_data) (users s)) in
  match existing_user with
  | Some _ => raise (HTTPException 400 "Email already registered")
  | None =>
      let hashed_password := get_password_hash (UserCreate.password user_data) in
      let* user_obj := User_new user_data in
      update (with_users (insert_one (User_dict user_obj (Some hashed_password)))) ;;
      ret user_obj
  end.

Definition login (user_credentials : UserLogin.t) : M Token.t :=
  let* user :=
    query (λ s, list_find (λ d, UserDoc.email d = UserLogin.email user_credentials)
                          (users s)) in
  match user with
  | None => raise (HTTPException HTTP_401_UNAUTHORIZED "Incorrect email or password")
  | Some (_, d) =>
      match UserDoc.hashed_password d with
      | None => raise (KeyError "hashed_password")
      | Some hashed_password =>
          if verify_password (UserLogin.password user_credentials) hashed_password
          then
            let* access_token := create_access_token (UserDoc.id d) None in
            ret (Token.mk access_token "bearer" (User_of_doc d))
          else raise (HTTPException HTTP_401_UNAUTHORIZED "Incorrect email or password")
      end
  end.

Definition student_login (credentials : StudentLogin.t) : M Token.t :=
  let* user :=
    query (λ s, list_find
                  (λ d, UserDoc.roll_no d = Some (Some (StudentLogin.roll_no credentials))
                        ∧ UserDoc.email d = StudentLogin.email credentials
                        ∧ UserDoc.role d = UserRole.STUDENT)
                  (users s)) in
  match user with
  | None => raise (HTTPException HTTP_401_UNAUTHORIZED "Invalid roll number or email")
  | Some (_, d) =>
      let* access_token := create_access_token (UserDoc.id d) None in
      ret (Token.mk access_token "bearer" (User_of_doc d))
  end.

Definition get_current_user_info (credentials : string) : M User.t :=
  get_current_user credentials.

(** ** Departments, classes and schedules *)

Definition create_department (name : string) (credentials : string) : M Department.t :=
  let* current_user := require_role [UserRole.SUPERADMIN] credentials in
  let* id := uuid4 in
  let* created_at := now in
  let department := Department.mk id name created_at (User.id current_user) in
  update (with_departments (insert_one department)) ;;
  ret department.

Definition get_departments (credentials : string) : M (list Department.t) :=
  let* current_user := get_current_user credentials in
  query departments.

Definition create_class (name department_id : string) (credentials : string) : M Class.t :=
  let* current_user := require_role [UserRole.SUBADMIN] credentials in
  let* department :=
    query (λ s, list_find (λ d, Department.id d = department_id) (departments s)) in
  match department with
  | None => raise (HTTPException 404 "Department not found")
  | Some _ =>
      let* id := uuid4 in
      let* created_at := now in
      let class_obj := Class.mk id name department_id created_at (User.id current_user) in
      update (with_classes (insert_one class_obj)) ;;
      ret class_obj
  end.

Definition get_classes (credentials : string) : M (list Class.t) :=
  let* current_user := get_current_user credentials in
  query classes.

(** The [Schedule] model built from the request body. *)
Definition Schedule_of_body (b : ScheduleBody.t) : M Schedule.t :=
  let* id := match ScheduleBody.id b with Some i => ret i | None => uuid4 end in
  let* created_at :=
    match ScheduleBody.created_at b with Some t => ret t | None => now end in
  ret (Schedule.mk id (ScheduleBody.class_id b) (ScheduleBody.teacher_id b)
         (ScheduleBody.subject b) (ScheduleBody.start_time b)
         (ScheduleBody.end_time b) (ScheduleBody.day_of_week b) created_at).

Definition create_schedule (body : ScheduleBody.t) (credentials : string) : M Schedule.t :=
  let* current_user := require_role [UserRole.SUBADMIN] credentials in
  let* schedule_data := Schedule_of_body body in
  update (with_schedules (insert_one schedule_data)) ;;
  ret schedule_data.

Definition schedule_query (class_id teacher_id : option string) (s : Schedule.t) : Prop :=
  match truthy class_id with Some c => Schedule.class_id s = c | None => True end
  ∧ match truthy teacher_id with Some t => Schedule.teacher_id s = t | None => True end.

Global Instance schedule_query_dec class_id teacher_id s :
  Decision (schedule_query class_id teacher_id s).
Proof.
  unfold schedule_query.
  destruct (truthy class_id), (truthy teacher_id); apply _.
Defined.

Definition get_schedules (class_id teacher_id : option string) (credentials : string)
  : M (list Schedule.t) :=
  let* current_user := get_current_user credentials in
  query (λ s, filter (schedule_query class_id teacher_id) (schedules s)).

(** ** QR sessions *)

(** The text a session's QR code carries. *)
Definition qr_data (session_id class_id teacher_id : string) : string :=
  "attendance:" ++ session_id ++ ":" ++ class_id ++ ":" ++ teacher_id.

Definition generate_qr_session (class_id subject : string) (credentials : string)
  : M QRCodeResponse.t :=
  let* current_user :=
    require_role [UserRole.CLASS_TEACHER; UserRole.SUB_TEACHER] credentials in
  if decide (User.role current_user = UserRole.CLASS_TEACHER
             ∧ User.class_id current_user ≠ Some class_id)
  then raise (HTTPException 403 "Not assigned to this class")
  else
    let* session_id := uuid4 in
    let* t := now in
    let expires_at := t + timedelta_minutes 15 in
    let qr_code_base64 := generate_qr_code (qr_data session_id class_id (User.id current_user)) in
    let* created_at := now in
    let qr_session :=
      QRSession.mk session_id class_id (User.id current_user) subject
                   qr_code_base64 expires_at created_at in
    update (with_qr_sessions (insert_one qr_session)) ;;
    ret (QRCodeResponse.mk qr_code_base64 session_id expires_at).

(** ** Attendance *)

Definition scan_qr_code (qr_session_id : string) (credentials : string)
  : M ScanResponse.t :=
  let* current_user := require_role [UserRole.STUDENT] credentials in
  let* qr_session :=
    query (λ s, list_find (λ q, QRSession.id q = qr_session_id) (qr_sessions s)) in
  match qr_session with
  | None => raise (HTTPException 404 "Invalid QR code")
  | Some (_, qr_session_obj) =>
      let* t := now in
      if decide (QRSession.expires_at qr_session_obj < t)
      then raise (HTTPException 400 "QR code has expired")
      else if decide (User.class_id current_user ≠ Some (QRSession.class_id qr_session_obj))
      then raise (HTTPException 403 "Not enrolled in this class")
      else
        let* existing_attendance :=
          query (λ s, list_find
                        (λ a, Attendance.student_id a = User.id current_user
                              ∧ Attendance.qr_session_id a = qr_session_id)
                        (attendance s)) in
        match existing_attendance with
        | Some _ => raise (HTTPException 400 "Attendance already marked")
        | None =>
            let* otp := generate_otp in
            let* t' := now in
            let* created_at := now in
            let otp_request :=
              OTPRequest.mk (User.id current_user) qr_session_id otp
                            (t' + timedelta_minutes 5) false created_at in
            update (with_otp_requests (insert_one otp_request)) ;;
            add_task (User.email current_user) otp ;;
            ret (ScanResponse.mk "OTP sent to your email" "5 minutes")
        end
  end.

Definition verify_otp (verification : OTPVerification.t) (credentials : string)
  : M VerifyResponse.t :=
  let* current_user := require_role [UserRole.STUDENT] credentials in
  let* otp_request :=
    query (λ s, list_find
                  (λ c, OTPRequest.student_id c = User.id current_user
                        ∧ OTPRequest.qr_session_id c = OTPVerification.qr_session_id verification
                        ∧ OTPRequest.otp c = OTPVerification.otp verification
                        ∧ OTPRequest.verified c = false)
                  (otp_requests s)) in
  match otp_request with
  | None => raise (HTTPException 400 "Invalid OTP")
  | Some (_id, otp_obj) =>
      let* t := now in
      if decide (OTPRequest.expires_at otp_obj < t)
      then raise (HTTPException 400 "OTP has expired")
      else
        let* qr_session :=
          query (λ s, list_find
                        (λ q, QRSession.id q = OTPVerification.qr_session_id verification)
                        (qr_sessions s)) in
        match qr_session with
        | None => raise (TypeError "argument after ** must be a mapping, not NoneType")
        | Some (_, qr_session_obj) =>
            let* date := now in
            let* id := uuid4 in
            let* created_at := now in
            let attendance :=
              Attendance.mk id (User.id current_user)
                (QRSession.class_id qr_session_obj) (QRSession.teacher_id qr_session_obj)
                (QRSession.subject qr_session_obj) date "present"
                (OTPVerification.qr_session_id verification) created_at in
            update (with_attendance (insert_one attendance)) ;;
            update (with_otp_requests (alter OTPRequest.set_verified _id)) ;;
            ret (VerifyResponse.mk "Attendance marked successfully")
        end
  end.

(** ** Student management *)

Definition add_student (student_data : UserCreate.t) (credentials : string) : M User.t :=
  let* current_user := require_role [UserRole.CLASS_TEACHER] credentials in
  let student_data := UserCreate.set_role UserRole.STUDENT student_data in
  let student_data := UserCreate.set_class_id (User.class_id current_user) student_data in
  let* existing :=
    query (λ s, list_find (λ d, UserDoc.email d = UserCreate.email student_data) (users s)) in
  match existing with
  | Some _ => raise (HTTPException 400 "Student already exists")
  | None =>
      let* user_obj := User_new student_data in
      update (with_users (insert_one (User_dict user_obj None))) ;;
      ret user_obj
  end.

Definition students_query (current_user : User.t) (d : UserDoc.t) : Prop :=
  UserDoc.role d = UserRole.STUDENT
  ∧ (if decide (User.role current_user = UserRole.CLASS_TEACHER)
     then mongo_eq (User.class_id current_user) (UserDoc.class_id d)
     else True).

Global Instance students_query_dec current_user d : Decision (students_query current_user d).
Proof. unfold students_query. destruct (decide _); apply _. Defined.

Definition get_students (credentials : string) : M (list User.t) :=
  let* current_user :=
    require_role [UserRole.CLASS_TEACHER; UserRole.SUB_TEACHER] credentials in
  let* students := query (λ s, filter (students_query current_user) (users s)) in
  ret (User_of_doc <$> students).

(** ** Reports *)

Definition report_query (class_id : option string) (range : option (datetime * datetime))
    (current_user : User.t) (a : Attendance.t) : Prop :=
  match truthy class_id with
  | Some c => Attendance.class_id a = c
  | None =>
      if decide (User.role current_user = UserRole.CLASS_TEACHER)
      then mongo_eq (User.class_id current_user) (Some (Some (Attendance.class_id a)))
      else True
  end
  ∧ match range with
    | Some (start, end_) => start ≤ Attendance.date a ∧ Attendance.date a ≤ end_
    | None => True
    end.

Global Instance report_query_dec class_id range current_user a :
  Decision (report_query class_id range current_user a).
Proof.
  unfold report_query.
  destruct (truthy class_id), range as [[??]|]; try destruct (decide _); apply _.
Defined.

(** One turn of the loop over the attendance records. *)
Definition enrich (record : Attendance.t) : M EnrichedRecord.t :=
  let* student :=
    query (λ s, list_find (λ d, UserDoc.id d = Attendance.student_id record) (users s)) in
  let* class_info :=
    query (λ s, list_find (λ c, Class.id c = Attendance.class_id record) (classes s)) in
  let student_name :=
    match student with Some (_, d) => UserDoc.username d | None => "Unknown" end in
  let* student_roll_no :=
    match student with
    | Some (_, d) =>
        match UserDoc.roll_no d with
        | Some r => ret r
        | None => raise (KeyError "roll_no")
        end
    | None => ret (Some "Unknown")
    end in
  let class_name :=
    match class_info with Some (_, c) => Class.name c | None => "Unknown" end in
  ret (EnrichedRecord.mk record student_name student_roll_no class_name).

Fixpoint enrich_all (records : list Attendance.t) : M (list EnrichedRecord.t) :=
  match records with
  | [] => ret []
  | record :: rest =>
      let* e := enrich record in
      let* es := enrich_all rest in
      ret (e :: es)
  end.

Definition get_attendance_report (class_id start_date end_date : option string)
    (credentials : string) : M (list EnrichedRecord.t) :=
  let* current_user :=
    require_role [UserRole.CLASS_TEACHER; UserRole.SUB_TEACHER; UserRole.SUBADMIN]
                 credentials in
  let* range :=
    match truthy start_date, truthy end_date with
    | Some sd, Some ed =>
        match fromisoformat env sd with
        | None => raise (ValueError "Invalid isoformat string")
        | Some start =>
            match fromisoformat env ed with
            | None => raise (ValueError "Invalid isoformat string")
            | Some end_ => ret (Some (start, end_))
            end
        end
    | _, _ => ret None
    end in
  let* attendance_records :=
    query (λ s, filter (report_query class_id range current_user) (attendance s)) in
  enrich_all attendance_records.

(** ** Dashboard *)

Definition on_day (today : datetime) (a : Attendance.t) : Prop :=
  today ≤ Attendance.date a ∧ Attendance.date a < today + timedelta_days 1.

Definition teacher_today_query (current_user : User.t) (today : datetime)
    (a : Attendance.t) : Prop :=
  on_day today a
  ∧ (if decide (User.role current_user = UserRole.CLASS_TEACHER)
     then mongo_eq (User.class_id current_user) (Some (Some (Attendance.class_id a)))
     else True).

Global Instance teacher_today_query_dec current_user today a :
  Decision (teacher_today_query current_user today a).
Proof. unfold teacher_today_query, on_day. destruct (decide _); apply _. Defined.

Definition get_dashboard_data (credentials : string) : M Dashboard :=
  let* current_user := get_current_user credentials in
  let* t := now in
  let today := day_start t in
  if decide (User.role current_user = UserRole.STUDENT) then
    let* attendance_count :=
      query (λ s, length (filter (λ a, Attendance.student_id a = User.id current_user
                                       ∧ on_day today a) (attendance s))) in
    ret (StudentDashboard (User.role current_user) attendance_count
                          (User.class_id current_user))
  else if decide (User.role current_user ∈ [UserRole.CLASS_TEACHER; UserRole.SUB_TEACHER]) then
    let* attendance_count :=
      query (λ s, length (filter (teacher_today_query current_user today) (attendance s))) in
    ret (TeacherDashboard (User.role current_user) attendance_count
                          (User.class_id current_user))
  else
    let* total_students :=
      query (λ s, length (filter (λ d, UserDoc.role d = UserRole.STUDENT) (users s))) in
    let* total_classes := query (λ s, length (classes s)) in
    let* today_attendance :=
      query (λ s, length (filter (on_day today) (attendance s))) in
    ret (AdminDashboard (User.role current_user) total_students total_classes
                        today_attendance).

(** ** Startup *)

Definition create_default_admin : M unit :=
  let* admin_exists :=
    query (λ s, list_find (λ d, UserDoc.role d = UserRole.SUPERADMIN) (users s)) in
  match admin_exists with
  | Some _ => ret tt
  | None =>
      let* id := uuid4 in
      let hashed_password := get_password_hash "admin123" in
      let* created_at := now in
      let admin_user :=
        UserDoc.mk id "admin@school.com" "Super Admin" UserRole.SUPERADMIN
                   None None None None created_at true (Some hashed_password) in
      update (with_users (insert_one admin_user)) ;;
      logger_info "Default superadmin created: admin@school.com / admin123"
  end.

(** ** The server as a transition system *)

Inductive request : Type :=
| Startup
| Root
| RegisterUser (user_data : UserCreate.t) (credentials : string)
| Login (user_credentials : UserLogin.t)
| StudentLogin (credentials : StudentLogin.t)
| GetCurrentUserInfo (credentials : string)
| CreateDepartment (name : string) (credentials : string)
| GetDepartments (credentials : string)
| CreateClass (name department_id : string) (credentials : string)
| GetClasses (credentials : string)
| CreateSchedule (body : ScheduleBody.t) (credentials : string)
| GetSchedules (class_id teacher_id : option string) (credentials : string)
| GenerateQrSession (class_id subject : string) (credentials : string)
| ScanQrCode (qr_session_id : string) (credentials : string)
| VerifyOtp (verification : OTPVerification.t) (credentials : string)
| AddStudent (student_data : UserCreate.t) (credentials : string)
| GetStudents (credentials : string)
| GetAttendanceReport (class_id start_date end_date : option string) (credentials : string)
| GetDashboardData (credentials : string).

Inductive response : Type :=
| NoContent
| RootR (r : RootResponse.t)
| UserR (u : User.t)
| TokenR (t : Token.t)
| DepartmentR (d : Department.t)
| DepartmentsR (ds : list Department.t)
| ClassR (c : Class.t)
| ClassesR (cs : list Class.t)
| ScheduleR (s : Schedule.t)
| SchedulesR (ss : list Schedule.t)
| QRCodeR (q : QRCodeResponse.t)
| ScanR (r : ScanResponse.t)
| VerifyR (r : VerifyResponse.t)
| UsersR (us : list User.t)
| ReportR (rs : list EnrichedRecord.t)
| DashboardR (d : Dashboard).

Definition respond {A : Type} (f : A → response) (m : M A) : M response :=
  let* a := m in ret (f a).

Definition handle (r : request) : M response :=
  match r with
  | Startup => respond (λ _, NoContent) create_default_admin
  | Root => respond RootR root
  | RegisterUser user_data credentials =>
      respond UserR (register_user user_data credentials)
  | Login user_credentials => respond TokenR (login user_credentials)
  | StudentLogin credentials => respond TokenR (student_login credentials)
  | GetCurrentUserInfo credentials => respond UserR (get_current_user_info credentials)
  | CreateDepartment name credentials =>
      respond DepartmentR (create_department name credentials)
  | GetDepartments credentials => respond DepartmentsR (get_departments credentials)
  | CreateClass name department_id credentials =>
      respond ClassR (create_class name department_id credentials)
  | GetClasses credentials => respond ClassesR (get_classes credentials)
  | CreateSchedule body credentials => respond ScheduleR (create_schedule body credentials)
  | GetSchedules class_id teacher_id credentials =>
      respond SchedulesR (get_schedules class_id teacher_id credentials)
  | GenerateQrSession class_id subject credentials =>
      respond QRCodeR (generate_qr_session class_id subject credentials)
  | ScanQrCode qr_session_id credentials =>
      respond ScanR (scan_qr_code qr_session_id credentials)
  | VerifyOtp verification credentials =>
      respond VerifyR (verify_otp verification credentials)
  | AddStudent student_data credentials =>
      respond UserR (add_student student_data credentials)
  | GetStudents credentials => respond UsersR (get_students credentials)
  | GetAttendanceReport class_id start_date end_date credentials =>
      respond ReportR (get_attendance_report class_id start_date end_date credentials)
  | GetDashboardData credentials => respond DashboardR (get_dashboard_data credentials)
  end.

(** The queued tasks run once the response is out; what they do cannot
    change it. *)
Fixpoint run_tasks (tasks : list (string * string)) (w : World) : World :=
  match tasks with
  | [] => w
  | (email, otp) :: rest => run_tasks rest (send_otp_email email otp w).2
  end.

Definition clear_tasks (w : World) : World :=
  mkWorld (db w) (clock_reads w) (uuid_draws w) (random_draws w) [] (log w).

(** One request from start to end: the handler, then the tasks it queued
    when it answered, none when it raised. *)
Definition serve (r : request) (w : World) : result response * World :=
  match handle r w with
  | (Ok a, w') => (Ok a, run_tasks (background_tasks w') (clear_tasks w'))
  | (Raise e, w') => (Raise e, clear_tasks w')
  end.

Definition step (w w' : World) : Prop := ∃ r, (serve r w).2 = w'.

End Server.

Definition initial_world : World := mkWorld empty_store 0 0 0 [] [].

(** The worlds the server can be in: from an empty database, any number of
    requests (the startup hook among them). *)
Definition reachable (env : Env) (w : World) : Prop := rtc (step env) initial_world w.

(** ** Worlds after a clock reading or random draws *)

Definition tick (w : World) : World :=
  mkWorld (db w) (S (clock_reads w)) (uuid_draws w) (random_draws w)
          (background_tasks w) (log w).

Definition drew (n : nat) (w : World) : World :=
  mkWorld (db w) (clock_reads w) (uuid_draws w) (n + random_draws w)
          (background_tasks w) (log w).

(** ** Invariants of the reachable worlds *)

Definition expiries (w : World) : list datetime :=
  OTPRequest.expires_at <$> otp_requests (db w).

(** What one request may do to the users, to the challenges and to the
    number of clock readings. *)
Definition effect (env : Env) (w w' : World) : Prop :=
  (clock_reads w ≤ clock_reads w')%nat
  ∧ (users (db w') = users (db w)
     ∨ ∃ d n, users (db w') = (users (db w) ++ [d])%list ∧ UserDoc.id d = UUID_str n)
  ∧ (expiries w' = expiries w
     ∨ ∃ i, (clock_reads w ≤ i < clock_reads w')%nat
            ∧ expiries w' = (expiries w ++ [wall_clock env i + timedelta_minutes 5])%list).


Definition users_have_uuids (w : World) : Prop :=
  Forall (λ d, ∃ n, UserDoc.id d = UUID_str n) (users (db w)).



(** ** The role table *)

Definition credentials_of (r : request) : option string :=
  match r with
  | Startup | Root | Login _ | StudentLogin _ => None
  | RegisterUser _ c | GetCurrentUserInfo c | CreateDepartment _ c | GetDepartments c
  | CreateClass _ _ c | GetClasses c | CreateSchedule _ c | GetSchedules _ _ c
  | GenerateQrSession _ _ c | ScanQrCode _ c | VerifyOtp _ c | AddStudent _ c
  | GetStudents c | GetAttendanceReport _ _ _ c | GetDashboardData c => Some c
  end.

(** The allowed roles of each gated operation as the specification lists
    them (org-owner is [superadmin], org-admin [subadmin], class-owner
    [class_teacher], class-assistant [sub_teacher], learner [student]);
    [None] for an operation the table does not gate. *)
Definition role_table (r : request) : option (list string) :=
  match r with
  | CreateDepartment _ _ => Some [UserRole.SUPERADMIN]
  | CreateClass _ _ _ | CreateSchedule _ _ => Some [UserRole.SUBADMIN]
  | RegisterUser _ _ => Some [UserRole.SUPERADMIN; UserRole.SUBADMIN]
  | AddStudent _ _ => Some [UserRole.CLASS_TEACHER]
  | GenerateQrSession _ _ _ | GetStudents _ =>
      Some [UserRole.CLASS_TEACHER; UserRole.SUB_TEACHER]
  | ScanQrCode _ _ | VerifyOtp _ _ => Some [UserRole.STUDENT]
  | GetAttendanceReport _ _ _ _ =>
      Some [UserRole.CLASS_TEACHER; UserRole.SUB_TEACHER; UserRole.SUBADMIN]
  | _ => None
  end.

Definition not_enough_permissions : exn :=
  HTTPException HTTP_403_FORBIDDEN "Not enough permissions".

(** ** Reading a QR payload back *)

Fixpoint remove_prefix (p s : string) : option string :=
  match p, s with
  | EmptyString, _ => Some s
  | String a p', String b s' => if Ascii.eqb a b then remove_prefix p' s' else None
  | String _ _, EmptyString => None
  end.

(** [s] cut at its first [c] *)
Fixpoint split_first (c : ascii) (s : string) : option (string * string) :=
  match s with
  | EmptyString => None
  | String a s' =>
      if Ascii.eqb a c then Some (EmptyString, s')
      else match split_first c s' with
           | Some (l, r) => Some (String a l, r)
           | None => None
           end
  end.

(** [s] cut at its last [c] *)
Fixpoint split_last (c : ascii) (s : string) : option (string * string) :=
  match s with
  | EmptyString => None
  | String a s' =>
      match split_last c s' with
      | Some (l, r) => Some (String a l, r)
      | None => if Ascii.eqb a c then Some (EmptyString, s') else None
      end
  end.

(** Modelled from the spec: the decoder of a session's payload string, which
    the source files do not contain (the server only builds the payload in
    [generate_qr_session]).  The specification asks that decoding recovers
    the session id, the class id and the issuer id that the payload binds;
    this reader takes the session id up to the first colon after the
    [attendance:] prefix, the issuer id after the last colon, and the class
    id in between. *)
Definition decode_qr_data (payload : string) : option (string * string * string) :=
  match remove_prefix "attendance:" payload with
  | None => None
  | Some rest =>
      match split_first ":" rest with
      | None => None
      | Some (session_id, rest') =>
          match split_last ":" rest' with
          | None => None
          | Some (class_id, teacher_id) => Some (session_id, class_id, teacher_id)
          end
      end
  end.

Fixpoint occurs (c : ascii) (s : string) : bool :=
  match s with
  | EmptyString => false
  | String a s' => Ascii.eqb a c || occurs c s'
  end.

(** ** A worked scenario

    A deterministic environment: the clock advances by a fixed number of
    seconds per reading, the [i]-th UUID is [i] with the version bits set,
    the [i]-th random digit is [i mod 10], and a bearer token is the user
    id itself. *)

Definition scenario_env (seconds_per_read : Z) : Env :=
  mkEnv (λ i, Z.of_nat i * seconds_per_read * 1000000)
        (λ i, N.of_nat i)
        (λ i, (N.of_nat i * 900719925474100)%N)
        (λ s, "sha256:" ++ s)
        (λ sub exp, sub)
        (λ token t, Some (Some token))
        (λ data, data)
        (λ _, None).

Fixpoint run (env : Env) (rs : list request) (w : World)
  : list (result response) * World :=
  match rs with
  | [] => ([], w)
  | r :: rest =>
      let '(a, w') := serve env r w in
      let '(l, w'') := run env rest w' in
      (a :: l, w'')
  end.

Definition admin_id : string := "00000000-0000-4000-8000-000000000000".
Definition teacher_id : string := "00000000-0000-4000-8000-000000000001".
Definition student_id : string := "00000000-0000-4000-8000-000000000002".
Definition session_id : string := "00000000-0000-4000-8000-000000000003".

Definition teacher_data : UserCreate.t :=
  UserCreate.mk "teacher@school.com" "Class Teacher" "teacher123"
                UserRole.CLASS_TEACHER None (Some "CS-101") None None.

(** The request asks for role [superadmin] and class [EE-202]. *)
Definition student_data : UserCreate.t :=
  UserCreate.mk "student@school.com" "Test Student" "dummy"
                UserRole.SUPERADMIN None (Some "EE-202") (Some "CS0001") None.

Definition scenario_teacher (seconds_per_read : Z) : User.t :=
  User.mk teacher_id "teacher@school.com" "Class Teacher" UserRole.CLASS_TEACHER
          None (Some "CS-101") None None (2 * seconds_per_read * 1000000) true.

Definition scenario_student (seconds_per_read : Z) : User.t :=
  User.mk student_id "student@school.com" "Test Student" UserRole.STUDENT
          None (Some "CS-101") (Some "CS0001") None (4 * seconds_per_read * 1000000) true.

(** Startup, the admin registers a class teacher, the teacher adds a
    student and opens a session for the class. *)
Definition setup : list request :=
  [Startup; RegisterUser teacher_data admin_id; AddStudent student_data teacher_id;
   GenerateQrSession "CS-101" "Mathematics" teacher_id].

(** The student scans the session twice and verifies with both codes. *)
Definition double_scan : list request :=
  setup ++ [ScanQrCode session_id student_id; ScanQrCode session_id student_id;
            VerifyOtp (OTPVerification.mk session_id "012345") student_id;
            VerifyOtp (OTPVerification.mk session_id "678901") student_id].

Definition after_registration (seconds_per_read : Z) : World :=
  (run (scenario_env seconds_per_read) [Startup; RegisterUser teacher_data admin_id]
       initial_world).2.

Definition after_student (seconds_per_read : Z) : World :=
  (run (scenario_env seconds_per_read)
       [Startup; RegisterUser teacher_data admin_id; AddStudent student_data teacher_id]
       initial_world).2.

Definition after_setup (seconds_per_read : Z) : World :=
  (run (scenario_env seconds_per_read) setup initial_world).2.

Definition after_scan (seconds_per_read : Z) : World :=
  (run (scenario_env seconds_per_read) (setup ++ [ScanQrCode session_id student_id])
       initial_world).2.


(** ** The writes of the server

    Every request changes the store by at most one of these writes; each
    carries what the handler checked before writing. *)

(** The document [create_default_admin] inserts. *)
Definition default_admin_doc (env : Env) (id : string) (created_at : datetime)
  : UserDoc.t :=
  UserDoc.mk id "admin@school.com" "Super Admin" UserRole.SUPERADMIN
             None None None None created_at true
             (Some (get_password_hash env "admin123")).

(** The first user with the given id is stored and has one of the roles. *)
Definition authorised (s : Store) (id : string) (roles : list string) : Prop :=
  ∃ j d, list_find (λ d, UserDoc.id d = id) (users s) = Some (j, d)
         ∧ UserDoc.role d ∈ roles.

(** A session was opened by a stored teacher, a class teacher only for the
    class of their own. *)
Definition session_ok (s : Store) (q : QRSession.t) : Prop :=
  ∃ j d, list_find (λ d, UserDoc.id d = QRSession.teacher_id q) (users s) = Some (j, d)
         ∧ UserDoc.role d ∈ [UserRole.CLASS_TEACHER; UserRole.SUB_TEACHER]
         ∧ (UserDoc.role d = UserRole.CLASS_TEACHER →
            default None (UserDoc.class_id d) = Some (QRSession.class_id q)).

Inductive write (env : Env) (s : Store) : Store → Prop :=
| write_nothing : write env s s
| write_account (caller : UserDoc.t) (u : User.t) (h : option string) (n : N) :
    caller ∈ users s →
    Forall (λ d, UserDoc.email d ≠ User.email u) (users s) →
    User.id u = UUID_str n →
    write env s (with_users (insert_one (User_dict u h)) s)
| write_default_admin (n : N) (created_at : datetime) :
    Forall (λ d, UserDoc.role d ≠ UserRole.SUPERADMIN) (users s) →
    write env s
      (with_users (insert_one (default_admin_doc env (UUID_str n) created_at)) s)
| write_department (d : Department.t) :
    authorised s (Department.created_by d) [UserRole.SUPERADMIN] →
    write env s (with_departments (insert_one d) s)
| write_class (c : Class.t) (dep : Department.t) :
    authorised s (Class.created_by c) [UserRole.SUBADMIN] →
    dep ∈ departments s →
    Department.id dep = Class.department_id c →
    write env s (with_classes (insert_one c) s)
| write_schedule (sc : Schedule.t) :
    write env s (with_schedules (insert_one sc) s)
| write_session (q : QRSession.t) :
    session_ok s q →
    write env s (with_qr_sessions (insert_one q) s)
| write_challenge (c : OTPRequest.t) (j : nat) (d : UserDoc.t) (k : nat) (q : QRSession.t) :
    list_find (λ d, UserDoc.id d = OTPRequest.student_id c) (users s) = Some (j, d) →
    UserDoc.role d = UserRole.STUDENT →
    list_find (λ q, QRSession.id q = OTPRequest.qr_session_id c) (qr_sessions s)
    = Some (k, q) →
    default None (UserDoc.class_id d) = Some (QRSession.class_id q) →
    OTPRequest.verified c = false →
    String.length (OTPRequest.otp c) = 6%nat →
    write env s (with_otp_requests (insert_one c) s)
| write_attendance (i : nat) (c : OTPRequest.t) (k : nat) (q : QRSession.t)
    (id : string) (date created_at : datetime) :
    otp_requests s !! i = Some c →
    OTPRequest.verified c = false →
    list_find (λ q, QRSession.id q = OTPRequest.qr_session_id c) (qr_sessions s)
    = Some (k, q) →
    write env s
      (with_otp_requests (alter OTPRequest.set_verified i)
         (with_attendance
            (insert_one
               (Attendance.mk id (OTPRequest.student_id c) (QRSession.class_id q)
                  (QRSession.teacher_id q) (QRSession.subject q) date "present"
                  (OTPRequest.qr_session_id c) created_at))
            s)).

(** ** Invariants of the store *)

(** The first document of a non-empty [users] collection is the default
    admin. *)
Definition admin_first (env : Env) (s : Store) : Prop :=
  users s = []
  ∨ ∃ n created_at,
      users s !! 0%nat = Some (default_admin_doc env (UUID_str n) created_at).

Definition emails_unique (s : Store) : Prop := NoDup (UserDoc.email <$> users s).

(** Only a superadmin's document may lack the [roll_no] key. *)
Definition roll_no_keys (s : Store) : Prop :=
  Forall (λ d, UserDoc.roll_no d = None → UserDoc.role d = UserRole.SUPERADMIN) (users s).

Definition classes_have_departments (s : Store) : Prop :=
  Forall (λ c, ∃ dep, dep ∈ departments s ∧ Department.id dep = Class.department_id c)
         (classes s).

(** A challenge was issued to a student of its session's class, for a
    session that is stored, with a code of six characters. *)
Definition challenge_ok (s : Store) (c : OTPRequest.t) : Prop :=
  ∃ j d k q,
    list_find (λ d, UserDoc.id d = OTPRequest.student_id c) (users s) = Some (j, d)
    ∧ UserDoc.role d = UserRole.STUDENT
    ∧ list_find (λ q, QRSession.id q = OTPRequest.qr_session_id c) (qr_sessions s)
      = Some (k, q)
    ∧ default None (UserDoc.class_id d) = Some (QRSession.class_id q)
    ∧ String.length (OTPRequest.otp c) = 6%nat.

(** An attendance record names a student of its class and repeats the
    class, teacher and subject of its session. *)
Definition record_ok (s : Store) (a : Attendance.t) : Prop :=
  ∃ j d k q,
    list_find (λ d, UserDoc.id d = Attendance.student_id a) (users s) = Some (j, d)
    ∧ UserDoc.role d = UserRole.STUDENT
    ∧ default None (UserDoc.class_id d) = Some (Attendance.class_id a)
    ∧ list_find (λ q, QRSession.id q = Attendance.qr_session_id a) (qr_sessions s)
      = Some (k, q)
    ∧ Attendance.class_id a = QRSession.class_id q
    ∧ Attendance.teacher_id a = QRSession.teacher_id q
    ∧ Attendance.subject a = QRSession.subject q
    ∧ Attendance.status a = "present".

(** The records and the consumed challenges of a (student, session) pair. *)
Definition records_of (student session : string) (s : Store) : list Attendance.t :=
  filter (λ a, Attendance.student_id a = student ∧ Attendance.qr_session_id a = session)
         (attendance s).

Definition consumed_of (student session : string) (s : Store) : list OTPRequest.t :=
  filter (λ c, OTPRequest.student_id c = student ∧ OTPRequest.qr_session_id c = session
               ∧ OTPRequest.verified c = true)
         (otp_requests s).

Record store_inv (env : Env) (s : Store) : Prop := mk_store_inv {
  inv_admin : admin_first env s;
  inv_emails : emails_unique s;
  inv_keys : roll_no_keys s;
  inv_classes : classes_have_departments s;
  inv_challenges : Forall (challenge_ok s) (otp_requests s);
  inv_records : Forall (record_ok s) (attendance s);
  inv_count : ∀ student session,
    length (records_of student session s) = length (consumed_of student session s) }.

(** A challenge as a later store may hold it: unchanged, or consumed. *)
Definition consumed_or_same (c c' : OTPRequest.t) : Prop :=
  c' = c ∨ (OTPRequest.verified c = false ∧ c' = OTPRequest.set_verified c).

(** No document is deleted or rewritten: every collection only grows at its
    end, and a challenge only ever changes by being consumed. *)
Record grows (s s' : Store) : Prop := mk_grows {
  grows_users : users s `prefix_of` users s';
  grows_departments : departments s `prefix_of` departments s';
  grows_classes : classes s `prefix_of` classes s';
  grows_schedules : schedules s `prefix_of` schedules s';
  grows_qr_sessions : qr_sessions s `prefix_of` qr_sessions s';
  grows_attendance : attendance s `prefix_of` attendance s';
  grows_otp_requests :
    ∃ kept later, otp_requests s' = (kept ++ later)%list
                  ∧ Forall2 consumed_or_same (otp_requests s) kept }.

(** Who wrote what: departments come from superadmins, classes from
    subadmins, sessions from teachers. *)
Record provenance (s : Store) : Prop := mk_provenance {
  prov_departments :
    Forall (λ d, authorised s (Department.created_by d) [UserRole.SUPERADMIN])
           (departments s);
  prov_classes :
    Forall (λ c, authorised s (Class.created_by c) [UserRole.SUBADMIN]) (classes s);
  prov_sessions : Forall (session_ok s) (qr_sessions s) }.

(** The world after the setup, one scan and the verification of its code. *)
Definition after_verify (seconds_per_read : Z) : World :=
  (run (scenario_env seconds_per_read)
       (setup ++ [ScanQrCode session_id student_id;
                  VerifyOtp (OTPVerification.mk session_id "012345") student_id])
       initial_world).2.

Definition department_id : string := "00000000-0000-4000-8000-000000000001".
Definition subadmin_id : string := "00000000-0000-4000-8000-000000000002".

Definition subadmin_data : UserCreate.t :=
  UserCreate.mk "subadmin@school.com" "Sub Admin" "subadmin123"
                UserRole.SUBADMIN None None None None.

(** Startup, the admin creates a department and registers a subadmin, and
    the subadmin creates a class in the department. *)
Definition campus : list request :=
  [Startup; CreateDepartment "Computer Science" admin_id;
   RegisterUser subadmin_data admin_id;
   CreateClass "CS-101" department_id subadmin_id].

Definition after_campus (seconds_per_read : Z) : World :=
  (run (scenario_env seconds_per_read) campus initial_world).2.

(** ** The log *)

(** The line that [send_otp_email] logs, and the line of the startup hook. *)
Definition email_line (email otp : string) : string :=
  "📧 MOCK EMAIL: Sending OTP " ++ otp ++ " to " ++ email.

Definition admin_line : string :=
  "Default superadmin created: admin@school.com / admin123".

(** The address of the first user with the given id. *)
Definition email_of (s : Store) (id : string) : string :=
  match list_find (λ d, UserDoc.id d = id) (users s) with
  | Some (_, d) => UserDoc.email d
  | None => ""
  end.

(** The log that a store accounts for: the startup line once a user is
    stored, then one email per challenge, in the order of the challenges. *)
Definition expected_log (s : Store) : list string :=
  (match users s with [] => [] | _ => [admin_line] end
   ++ ((λ c, email_line (email_of s (OTPRequest.student_id c)) (OTPRequest.otp c))
         <$> otp_requests s))%list.

(** What an email carries of a challenge: the student and the code. *)
Definition code_of (c : OTPRequest.t) : string * string :=
  (OTPRequest.student_id c, OTPRequest.otp c).

(** * Properties *)

(** ** The monad and the gate *)

Lemma bind_Ok {A B} (m : M A) (k : A → M B) w a w' :
  m w = (Ok a, w') → bind m k w = k a w'.
Proof. unfold bind. by intros ->. Qed.

Lemma bind_Raise {A B} (m : M A) (k : A → M B) w e w' :
  m w = (Raise e, w') → bind m k w = (Raise e, w').
Proof. unfold bind. by intros ->. Qed.

Lemma respond_fst {A} (f : A → response) (m : M A) w :
  (respond f m w).1 = match (m w).1 with Ok a => Ok (f a) | Raise e => Raise e end.
Proof. unfold respond, bind, ret. by destruct (m w) as [[?|?] ?]. Qed.

Lemma respond_snd {A} (f : A → response) (m : M A) w :
  (respond f m w).2 = (m w).2.
Proof. unfold respond, bind, ret. by destruct (m w) as [[?|?] ?]. Qed.

(** Authentication reads the clock once and leaves the rest alone. *)
Lemma get_current_user_world env credentials w r w1 :
  get_current_user env credentials w = (r, w1) → w1 = tick w.
Proof.
  unfold get_current_user, bind, now, query, raise, ret. simpl.
  destruct (jwt_decode _ _ _) as [[user_id|]|]; simpl; try by intros [= _ <-].
  destruct (list_find _ _) as [[??]|]; simpl; by intros [= _ <-].
Qed.

(** The authenticated user is one of the stored accounts. *)
Lemma get_current_user_doc env credentials w u w1 :
  get_current_user env credentials w = (Ok u, w1) →
  ∃ d, d ∈ users (db w) ∧ u = User_of_doc d.
Proof.
  unfold get_current_user, bind, now, query, raise, ret. simpl.
  destruct (jwt_decode _ _ _) as [[user_id|]|]; simpl; try done.
  destruct (list_find _ _) as [[i d]|] eqn:Hf; simpl; [|done].
  intros [= <- _]. exists d. split; [|done].
  apply list_find_Some in Hf as (Hi & _). by eapply list_elem_of_lookup_2.
Qed.

Lemma require_role_inv env allowed credentials w u w1 :
  require_role env allowed credentials w = (Ok u, w1) →
  get_current_user env credentials w = (Ok u, w1) ∧ User.role u ∈ allowed.
Proof.
  unfold require_role, bind.
  destruct (get_current_user _ _ _) as [[u'|e] w'] eqn:E; [|done].
  destruct (decide _); unfold ret, raise; [|done].
  by intros [= <- <-].
Qed.

Lemma require_role_world env allowed credentials w r w1 :
  require_role env allowed credentials w = (r, w1) → w1 = tick w.
Proof.
  unfold require_role, bind.
  destruct (get_current_user _ _ _) as [[u'|e] w'] eqn:E.
  - apply get_current_user_world in E as ->.
    destruct (decide _); unfold ret, raise; by intros [= _ <-].
  - apply get_current_user_world in E as ->. by intros [= _ <-].
Qed.

Lemma require_role_denied env allowed credentials w u w1 :
  get_current_user env credentials w = (Ok u, w1) →
  User.role u ∉ allowed →
  require_role env allowed credentials w = (Raise not_enough_permissions, w1).
Proof.
  intros E Hn. unfold require_role. rewrite (bind_Ok _ _ _ _ _ E).
  by destruct (decide _).
Qed.

Lemma require_role_allowed env allowed credentials w u w1 :
  get_current_user env credentials w = (Ok u, w1) →
  User.role u ∈ allowed →
  require_role env allowed credentials w = (Ok u, w1).
Proof.
  intros E Hin. unfold require_role. rewrite (bind_Ok _ _ _ _ _ E).
  by rewrite decide_True.
Qed.

(** ** Lists of documents *)

Lemma list_find_snoc {A} (P : A → Prop) `{∀ x, Decision (P x)} (l : list A) x :
  list_find P l = None → P x → list_find P (l ++ [x]) = Some (length l, x).
Proof.
  intros Hn Hx. apply list_find_Some. split_and!.
  - by rewrite lookup_app_r, Nat.sub_diag.
  - done.
  - intros j y Hj Hlt. rewrite lookup_app_l in Hj by done.
    rewrite list_find_None, Forall_forall in Hn. apply Hn.
    by eapply list_elem_of_lookup_2.
Qed.

Lemma expiries_alter (i : nat) (l : list OTPRequest.t) :
  OTPRequest.expires_at <$> alter OTPRequest.set_verified i l
  = OTPRequest.expires_at <$> l.
Proof.
  revert i. induction l as [|c l IH]; intros [|i]; simpl; try done.
  f_equal. apply IH.
Qed.

(** ** One-time codes *)

Lemma random_choices_digits env k w :
  ∃ cs, random_choices env string_digits k w = (Ok cs, drew k w)
        ∧ length cs = k ∧ Forall (λ c, c ∈ string_digits) cs.
Proof.
  revert w. induction k as [|k IH]; intros w.
  - exists []. split_and!; [by destruct w|done|constructor].
  - simpl. unfold bind at 1. unfold random_random at 1. simpl.
    set (r := (random53 env (random_draws w) mod 2 ^ 53)%N).
    assert (N.to_nat (r * 10 / 2 ^ 53) < 10)%nat as Hlt.
    { assert (r < 2 ^ 53)%N by (apply N.mod_lt; done).
      assert (r * 10 / 2 ^ 53 < 10)%N by (apply N.Div0.div_lt_upper_bound; lia).
      lia. }
    change (N.of_nat 10) with 10%N.
    destruct (string_digits !! N.to_nat (r * 10 / 2 ^ 53)%N) as [c|] eqn:Hc.
    2:{ apply lookup_ge_None in Hc. simpl in Hc. lia. }
    destruct (IH (drew 1 w)) as (cs & Hcs & Hlen & Hall).
    exists (c :: cs). split_and!.
    + unfold bind. change (mkWorld _ _ _ _ _ _) with (drew 1 w).
      rewrite Hcs. unfold ret, drew. simpl. do 3 f_equal. lia.
    + simpl. by rewrite Hlen.
    + constructor; [|done]. by eapply list_elem_of_lookup_2.
Qed.

(** [generate_otp] never raises: it returns six decimal digits. *)
Lemma generate_otp_digits env w :
  ∃ otp, generate_otp env w = (Ok otp, drew 6 w)
         ∧ String.length otp = 6%nat
         ∧ Forall (λ c, c ∈ string_digits) (list_ascii_of_string otp).
Proof.
  destruct (random_choices_digits env 6 w) as (cs & Hcs & Hlen & Hall).
  exists (string_of_list_ascii cs). unfold generate_otp. rewrite (bind_Ok _ _ _ _ _ Hcs).
  split_and!; [done| |by rewrite list_ascii_of_string_of_list_ascii].
  clear Hcs Hall. revert Hlen. generalize 6%nat. induction cs; intros [|n]; simpl; try done.
  intros [=]. f_equal. by apply IHcs.
Qed.

(** ** The handlers behind the gate, case by case *)

Lemma add_student_cases env student_data credentials teacher w w1 :
  require_role env [UserRole.CLASS_TEACHER] credentials w = (Ok teacher, w1) →
  add_student env student_data credentials w =
  match list_find (λ d, UserDoc.email d = UserCreate.email student_data) (users (db w)) with
  | Some _ => (Raise (HTTPException 400 "Student already exists"), w1)
  | None =>
      let user_obj :=
        User.mk (UUID_str (uuid4_int (urandom128 env (uuid_draws w1))))
          (UserCreate.email student_data) (UserCreate.username student_data)
          UserRole.STUDENT (UserCreate.department_id student_data)
          (User.class_id teacher) (UserCreate.roll_no student_data)
          (UserCreate.working_time student_data)
          (wall_clock env (clock_reads w1)) true in
      (Ok user_obj,
       mkWorld (with_users (insert_one (User_dict user_obj None)) (db w))
               (S (clock_reads w1)) (S (uuid_draws w1)) (random_draws w1)
               (background_tasks w1) (log w1))
  end.
Proof.
  intros Hg. unfold add_student. rewrite (bind_Ok _ _ _ _ _ Hg).
  apply require_role_world in Hg. subst w1.
  unfold bind, query. simpl.
  destruct (list_find _ _) as [[??]|]; reflexivity.
Qed.

Lemma generate_qr_session_cases env class_id subject credentials issuer w w1 :
  require_role env [UserRole.CLASS_TEACHER; UserRole.SUB_TEACHER] credentials w
  = (Ok issuer, w1) →
  generate_qr_session env class_id subject credentials w =
  if decide (User.role issuer = UserRole.CLASS_TEACHER
             ∧ User.class_id issuer ≠ Some class_id)
  then (Raise (HTTPException 403 "Not assigned to this class"), w1)
  else
    let session_id := UUID_str (uuid4_int (urandom128 env (uuid_draws w1))) in
    let expires_at := wall_clock env (clock_reads w1) + timedelta_minutes 15 in
    let qr_code_base64 :=
      generate_qr_code env (qr_data session_id class_id (User.id issuer)) in
    (Ok (QRCodeResponse.mk qr_code_base64 session_id expires_at),
     mkWorld
       (with_qr_sessions
          (insert_one
             (QRSession.mk session_id class_id (User.id issuer) subject qr_code_base64
                expires_at (wall_clock env (S (clock_reads w1)))))
          (db w))
       (S (S (clock_reads w1))) (S (uuid_draws w1)) (random_draws w1)
       (background_tasks w1) (log w1)).
Proof.
  intros Hg. unfold generate_qr_session. rewrite (bind_Ok _ _ _ _ _ Hg).
  apply require_role_world in Hg. subst w1.
  destruct (decide _); reflexivity.
Qed.

Lemma scan_qr_code_cases env qr_session_id credentials student w w1 :
  require_role env [UserRole.STUDENT] credentials w = (Ok student, w1) →
  ∃ otp,
    String.length otp = 6%nat
    ∧ Forall (λ c, c ∈ string_digits) (list_ascii_of_string otp)
    ∧ scan_qr_code env qr_session_id credentials w =
      match list_find (λ q, QRSession.id q = qr_session_id) (qr_sessions (db w)) with
      | None => (Raise (HTTPException 404 "Invalid QR code"), w1)
      | Some (_, s) =>
          if decide (QRSession.expires_at s < wall_clock env (clock_reads w1))
          then (Raise (HTTPException 400 "QR code has expired"), tick w1)
          else if decide (User.class_id student ≠ Some (QRSession.class_id s))
          then (Raise (HTTPException 403 "Not enrolled in this class"), tick w1)
          else
            match list_find (λ a, Attendance.student_id a = User.id student
                                  ∧ Attendance.qr_session_id a = qr_session_id)
                            (attendance (db w)) with
            | Some _ => (Raise (HTTPException 400 "Attendance already marked"), tick w1)
            | None =>
                (Ok (ScanResponse.mk "OTP sent to your email" "5 minutes"),
                 mkWorld
                   (with_otp_requests
                      (insert_one
                         (OTPRequest.mk (User.id student) qr_session_id otp
                            (wall_clock env (S (clock_reads w1)) + timedelta_minutes 5)
                            false (wall_clock env (S (S (clock_reads w1))))))
                      (db w))
                   (S (S (S (clock_reads w1)))) (uuid_draws w1) (6 + random_draws w1)
                   (background_tasks w1 ++ [(User.email student, otp)]) (log w1))
            end
      end.
Proof.
  intros Hg.
  destruct (generate_otp_digits env (tick w1)) as (otp & Hotp & Hlen & Hdig).
  exists otp. split_and!; [done..|].
  unfold scan_qr_code. rewrite (bind_Ok _ _ _ _ _ Hg).
  assert (db w = db w1) as -> by (by rewrite (require_role_world _ _ _ _ _ _ Hg)).
  clear Hg.
  unfold bind at 1. unfold query at 1.
  destruct (list_find _ _) as [[i s]|]; [|done].
  unfold bind at 1. unfold now at 1.
  destruct (decide _); [done|].
  destruct (decide _); [done|].
  unfold bind at 1. unfold query at 1. simpl.
  destruct (list_find _ _) as [[??]|]; [done|].
  fold (tick w1).
  rewrite (bind_Ok _ _ _ _ _ Hotp).
  reflexivity.
Qed.

(** ** The report loop *)

Lemma enrich_all_raises records w e :
  (enrich_all records w).1 = Raise e → e = KeyError "roll_no".
Proof.
  revert w. induction records as [|record rest IH]; intros w; simpl; [done|].
  unfold bind at 1. destruct (enrich record w) as [[a|e'] w'] eqn:He.
  - unfold bind. destruct (enrich_all rest w') as [[?|?] ?] eqn:Hr; simpl; [done|].
    intros [= <-]. apply (IH w'). by rewrite Hr.
  - simpl. intros [= <-]. revert He. unfold enrich, bind, query, ret, raise. simpl.
    repeat case_match; simplify_eq; try done; by intros [= <- _].
Qed.

Lemma enrich_all_world records w : (enrich_all records w).2 = w.
Proof.
  revert w. induction records as [|record rest IH]; intros w; simpl; [done|].
  unfold bind at 1. destruct (enrich record w) as [[a|e] w'] eqn:He.
  - assert (w' = w) as ->.
    { revert He. unfold enrich, bind, query, ret, raise. simpl.
      repeat case_match; simplify_eq; by intros [= _ <-]. }
    unfold bind. specialize (IH w). destruct (enrich_all rest w) as [[?|?] ?]; by simpl in *.
  - revert He. unfold enrich, bind, query, ret, raise. simpl.
    repeat case_match; simplify_eq; by intros [= _ <-].
Qed.

(** ** What a request does to the world *)

Ltac gate env Hg :=
  match goal with
  | |- context [bind (require_role env ?R ?c) ?k ?w] =>
      let u := fresh "current_user" in
      let e := fresh "e" in
      let w1 := fresh "w1" in
      destruct (require_role env R c w) as [[u|e] w1] eqn:Hg;
      [ rewrite (bind_Ok _ _ _ _ _ Hg) | rewrite (bind_Raise _ _ _ _ _ Hg) ];
      apply require_role_world in Hg; subst w1
  | |- context [bind (get_current_user env ?c) ?k ?w] =>
      let u := fresh "current_user" in
      let e := fresh "e" in
      let w1 := fresh "w1" in
      destruct (get_current_user env c w) as [[u|e] w1] eqn:Hg;
      [ rewrite (bind_Ok _ _ _ _ _ Hg) | rewrite (bind_Raise _ _ _ _ _ Hg) ];
      apply get_current_user_world in Hg; subst w1
  end.

Ltac branch :=
  match goal with
  | |- context [match list_find ?P ?l with _ => _ end] =>
      destruct (list_find P l) as [[??]|]
  | |- context [decide ?P] => destruct (decide P)
  | |- context [match ?x with Some _ => _ | None => _ end] => destruct x
  | |- context [if ?b then _ else _] => destruct b
  end.

Ltac steps :=
  unfold bind, query, update, uuid4, now, ret, raise, logger_info, add_task,
         User_new, Schedule_of_body; simpl.

Ltac effect_done :=
  unfold effect, expiries; simpl;
  split_and!; [lia | (by left) || (right; eexists _, _; split; reflexivity) | by left ].

Lemma handle_effect env r w : effect env w (handle env r w).2.
Proof.
  destruct r; unfold handle; rewrite respond_snd.
  - unfold create_default_admin. steps. repeat branch; effect_done.
  - unfold root. steps. effect_done.
  - unfold register_user. gate env Hg; [|effect_done]. steps. repeat branch; effect_done.
  - unfold login, create_access_token. steps. repeat branch; effect_done.
  - unfold student_login, create_access_token. steps. repeat branch; effect_done.
  - unfold get_current_user_info.
    destruct (get_current_user _ _ _) as [? w1] eqn:Hg.
    apply get_current_user_world in Hg as ->. effect_done.
  - unfold create_department. gate env Hg; [|effect_done]. steps. effect_done.
  - unfold get_departments. gate env Hg; [|effect_done]. steps. effect_done.
  - unfold create_class. gate env Hg; [|effect_done]. steps. repeat branch; effect_done.
  - unfold get_classes. gate env Hg; [|effect_done]. steps. effect_done.
  - unfold create_schedule. gate env Hg; [|effect_done]. steps. repeat branch; effect_done.
  - unfold get_schedules. gate env Hg; [|effect_done]. steps. effect_done.
  - unfold generate_qr_session. gate env Hg; [|effect_done]. steps.
    repeat branch; effect_done.
  - destruct (require_role env [UserRole.STUDENT] credentials w) as [[u|e] w1] eqn:Hg.
    2:{ unfold scan_qr_code. rewrite (bind_Raise _ _ _ _ _ Hg).
        apply require_role_world in Hg as ->. effect_done. }
    destruct (scan_qr_code_cases env qr_session_id _ _ _ _ Hg) as (otp & _ & _ & ->).
    apply require_role_world in Hg as ->.
    repeat branch; try effect_done.
    unfold effect, expiries; simpl. split_and!; [lia|by left|right].
    exists (S (S (clock_reads w))). split; [lia|]. unfold insert_one. by rewrite fmap_app.
  - unfold verify_otp. gate env Hg; [|effect_done]. steps. repeat branch; try effect_done.
    unfold effect, expiries; simpl. split_and!; [lia|by left|left].
    apply expiries_alter.
  - destruct (require_role env [UserRole.CLASS_TEACHER] credentials w) as [[u|e] w1] eqn:Hg.
    2:{ unfold add_student. rewrite (bind_Raise _ _ _ _ _ Hg).
        apply require_role_world in Hg as ->. effect_done. }
    rewrite (add_student_cases _ _ _ _ _ _ Hg).
    apply require_role_world in Hg as ->. repeat branch; effect_done.
  - unfold get_students. gate env Hg; [|effect_done]. steps. effect_done.
  - unfold get_attendance_report. gate env Hg; [|effect_done].
    unfold bind at 1.
    destruct (match truthy start_date with _ => _ end (tick w)) as [[range|e] w2] eqn:Hr.
    + assert (w2 = tick w) as ->.
      { revert Hr. unfold ret, raise. repeat case_match; by intros [= _ <-]. }
      unfold bind, query.
      pose proof (enrich_all_world
        (filter (report_query class_id range current_user) (attendance (db (tick w))))
        (tick w)) as He.
      destruct (enrich_all _ _) as [[?|?] ?]; simpl in *; subst; effect_done.
    + assert (w2 = tick w) as ->.
      { revert Hr. unfold ret, raise. repeat case_match; by intros [= _ <-]. }
      effect_done.
  - unfold get_dashboard_data. gate env Hg; [|effect_done]. steps.
    repeat branch; effect_done.
Qed.

Lemma run_tasks_frame tasks w :
  db (run_tasks tasks w) = db w
  ∧ clock_reads (run_tasks tasks w) = clock_reads w.
Proof.
  revert w. induction tasks as [|[email otp] rest IH]; intros w; [done|].
  cbn [run_tasks]. destruct (IH (send_otp_email email otp w).2) as [H1 H2].
  by rewrite H1, H2.
Qed.

Lemma serve_effect env r w : effect env w (serve env r w).2.
Proof.
  pose proof (handle_effect env r w) as He. unfold serve.
  destruct (handle env r w) as [[a|e] w']; simpl in *.
  - destruct (run_tasks_frame (background_tasks w') (clear_tasks w')) as [Hdb Hc].
    unfold effect, expiries in *. by rewrite Hdb, Hc.
  - done.
Qed.

Lemma step_effect env w w' : step env w w' → effect env w w'.
Proof. intros [r <-]. apply serve_effect. Qed.

(** ** Invariants *)

Lemma effect_users_have_uuids env w w' :
  effect env w w' → users_have_uuids w → users_have_uuids w'.
Proof.
  unfold users_have_uuids. intros (_ & [->|(d & n & -> & Hd)] & _) Hu; [done|].
  apply Forall_app. split; [done|]. constructor; eauto.
Qed.



Lemma reachable_users_have_uuids env w : reachable env w → users_have_uuids w.
Proof.
  unfold reachable. revert w. apply rtc_ind_r; [constructor|].
  intros y z _ Hyz IH. eapply effect_users_have_uuids; [by apply step_effect|done].
Qed.


(** User documents are only ever added, at the end. *)
Lemma later_users env w w' :
  rtc (step env) w w' → ∃ later, users (db w') = (users (db w) ++ later)%list.
Proof.
  revert w'. apply rtc_ind_r.
  - exists []. by rewrite app_nil_r.
  - intros y z _ Hyz [later IH].
    apply step_effect in Hyz as (_ & [->|(d & n & -> & _)] & _); [eauto|].
    exists (later ++ [d])%list. by rewrite IH, app_assoc.
Qed.

Lemma run_reachable env rs w : reachable env w → reachable env (run env rs w).2.
Proof.
  revert w. induction rs as [|r rest IH]; intros w Hw; simpl; [done|].
  destruct (serve env r w) as [a w'] eqn:Hs.
  specialize (IH w'). destruct (run env rest w') as [l w'']. simpl in *.
  apply IH. eapply rtc_r; [done|]. exists r. by rewrite Hs.
Qed.

(** ** UUID strings and the payload format *)

Lemma split_first_app c a b :
  occurs c a = false → split_first c (a ++ String c b) = Some (a, b).
Proof.
  induction a as [|x a IH]; simpl.
  - by rewrite Ascii.eqb_refl.
  - intros [Hx Ha]%orb_false_elim. by rewrite Hx, IH.
Qed.

Lemma split_last_None c s : occurs c s = false → split_last c s = None.
Proof.
  induction s as [|x s IH]; simpl; [done|].
  intros [Hx Hs]%orb_false_elim. by rewrite IH, Hx.
Qed.

Lemma split_last_app c a b :
  occurs c b = false → split_last c (a ++ String c b) = Some (a, b).
Proof.
  intros Hb. induction a as [|x a IH]; simpl.
  - by rewrite split_last_None, Ascii.eqb_refl.
  - by rewrite IH.
Qed.

Lemma decode_qr_data_qr_data session_id class_id teacher_id :
  occurs ":" session_id = false → occurs ":" teacher_id = false →
  decode_qr_data (qr_data session_id class_id teacher_id)
  = Some (session_id, class_id, teacher_id).
Proof.
  intros Hs Ht. unfold decode_qr_data.
  change (remove_prefix "attendance:" (qr_data session_id class_id teacher_id))
    with (Some (session_id ++ String ":" (class_id ++ String ":" teacher_id))).
  cbv beta iota.
  rewrite (split_first_app ":" session_id _ Hs).
  by rewrite (split_last_app ":" class_id _ Ht).
Qed.

Lemma occurs_string_of_list_ascii c l :
  c ∉ l → occurs c (string_of_list_ascii l) = false.
Proof.
  induction l as [|x l IH]; simpl; [done|].
  intros [Hx Hl]%not_elem_of_cons. rewrite IH by done.
  rewrite orb_false_r. apply Ascii.eqb_neq. congruence.
Qed.

Lemma hex_digit_elem d : hex_digit d ∈ hexdigits.
Proof.
  unfold hex_digit. destruct (hexdigits !! N.to_nat d) as [c|] eqn:Hc; simpl.
  - by eapply list_elem_of_lookup_2.
  - by left.
Qed.

Lemma hex_elem k n : Forall (λ c, c ∈ hexdigits) (hex k n).
Proof.
  revert n. induction k as [|k IH]; intros n; simpl; [constructor|].
  apply Forall_app. split; [apply IH|]. constructor; [apply hex_digit_elem|constructor].
Qed.

(** A UUID in text form is made of hexadecimal digits and hyphens. *)
Lemma UUID_str_no_colon n : occurs ":" (UUID_str n) = false.
Proof.
  unfold UUID_str. apply occurs_string_of_list_ascii.
  pose proof (hex_elem 32 n) as Hh.
  assert (∀ l, Forall (λ c, c ∈ hexdigits) l → ":"%char ∉ l) as Hno.
  { intros l Hl Hin. rewrite Forall_forall in Hl. specialize (Hl _ Hin).
    revert Hl. by apply (bool_decide_unpack (":"%char ∉ hexdigits)). }
  repeat (rewrite not_elem_of_app || rewrite not_elem_of_cons).
  split_and!; try done; apply Hno;
    repeat (apply Forall_take || apply Forall_drop); done.
Qed.

(** * The claims *)

(** ** Double attendance *)


(** ** Requesting a challenge *)



(** ** A challenge whose session is gone *)


(** ** Challenge expiry against session expiry *)




(** ** Issuing a session *)



(** ** The role gate *)

Ltac run_handler :=
  unfold bind, query, update, now, uuid4, ret, raise, add_task, User_new,
         Schedule_of_body; simpl;
  repeat (case_match || case_decide); simpl in *; simplify_eq; simpl; try done;
  try (unfold not_enough_permissions; intros [= ? ?]; discriminate).

(** Past the gate no handler raises the gate's own error. *)
Lemma body_not_gate_error env r credentials allowed caller w w1 :
  role_table r = Some allowed →
  credentials_of r = Some credentials →
  require_role env allowed credentials w = (Ok caller, w1) →
  (handle env r w).1 ≠ Raise not_enough_permissions.
Proof.
  intros Ht Hc Hg.
  destruct r; simplify_eq/=; rewrite respond_fst.
  - unfold register_user. rewrite (bind_Ok _ _ _ _ _ Hg). run_handler.
  - unfold create_department. rewrite (bind_Ok _ _ _ _ _ Hg). run_handler.
  - unfold create_class. rewrite (bind_Ok _ _ _ _ _ Hg). run_handler.
  - unfold create_schedule. rewrite (bind_Ok _ _ _ _ _ Hg). run_handler.
  - rewrite (generate_qr_session_cases _ _ _ _ _ _ _ Hg). run_handler.
  - destruct (scan_qr_code_cases env qr_session_id _ _ _ _ Hg) as (otp & _ & _ & ->).
    run_handler.
  - unfold verify_otp. rewrite (bind_Ok _ _ _ _ _ Hg). run_handler.
  - rewrite (add_student_cases _ _ _ _ _ _ Hg). run_handler.
  - unfold get_students. rewrite (bind_Ok _ _ _ _ _ Hg). run_handler.
  - unfold get_attendance_report. rewrite (bind_Ok _ _ _ _ _ Hg).
    unfold bind at 1.
    destruct (match truthy start_date with _ => _ end w1) as [[range|e] w2] eqn:Hr.
    + unfold bind, query.
      destruct (enrich_all _ _) as [[?|e] ?] eqn:He; simpl; [done|].
      intros [= ->]. by apply (f_equal fst), enrich_all_raises in He.
    + simpl. intros [= ->]. revert Hr. unfold ret, raise. repeat case_match; done.
Qed.

(** C6: for every operation of the role table and every authenticated caller,
    a role outside the operation's row makes the handler raise 403 "Not
    enough permissions" in the world authentication left: nothing but the
    caller's account was read, the store is unchanged and no 404 can come
    out, whatever the store holds.  Conversely the handler raises that error
    only for such a role, so the sets the handlers check are those of the
    table. *)
Theorem gate_denies_before_resource env r credentials allowed caller w w1 :
  role_table r = Some allowed →
  credentials_of r = Some credentials →
  get_current_user env credentials w = (Ok caller, w1) →
  (User.role caller ∉ allowed →
   handle env r w = (Raise not_enough_permissions, w1)
   ∧ serve env r w = (Raise not_enough_permissions, clear_tasks w1)
   ∧ db w1 = db w)
  ∧ ((handle env r w).1 = Raise not_enough_permissions → User.role caller ∉ allowed).
Proof.
  intros Ht Hc Hu. split.
  - intros Hn.
    pose proof (require_role_denied env allowed _ _ _ _ Hu Hn) as Hg.
    assert (handle env r w = (Raise not_enough_permissions, w1)) as Hh.
    { destruct r; simplify_eq/=;
        unfold respond, register_user, create_department, create_class, create_schedule,
          generate_qr_session, scan_qr_code, verify_otp, add_student, get_students,
          get_attendance_report;
        by rewrite (bind_Raise _ _ _ _ _ (bind_Raise _ _ _ _ _ Hg)). }
    split_and!; [done| |].
    + unfold serve. by rewrite Hh.
    + by rewrite (get_current_user_world _ _ _ _ _ Hu).
  - intros Hh Hin.
    pose proof (require_role_allowed env allowed _ _ _ _ Hu Hin) as Hg.
    by eapply body_not_gate_error.
Qed.

(** A student asks to create a class under a department that does not
    exist: the answer is 403, not 404. *)
Lemma gate_denies_before_resource_witness :
  let env := scenario_env 1 in
  let w := after_setup 1 in
  let r := CreateClass "CS-102" "no-such-department" student_id in
  role_table r = Some [UserRole.SUBADMIN]
  ∧ credentials_of r = Some student_id
  ∧ get_current_user env student_id w = (Ok (scenario_student 1), tick w)
  ∧ departments (db w) = []
  ∧ handle env r w = (Raise not_enough_permissions, tick w)
  ∧ db (tick w) = db w.
Proof.
  cbv zeta.
  assert (get_current_user (scenario_env 1) student_id (after_setup 1)
          = (Ok (scenario_student 1), tick (after_setup 1))) as Hu
    by (vm_compute; reflexivity).
  split_and!; [reflexivity|reflexivity|exact Hu|vm_compute; reflexivity|..].
  - destruct (gate_denies_before_resource (scenario_env 1)
                (CreateClass "CS-102" "no-such-department" student_id)
                student_id [UserRole.SUBADMIN] _ _ _ eq_refl eq_refl Hu) as [Hdeny _].
    destruct Hdeny as (Hh & _ & _); [|exact Hh].
    intros Hin. apply list_elem_of_singleton in Hin. discriminate Hin.
  - vm_compute. reflexivity.
Defined.

(** ** The payload round trip *)

(** C7: in every reachable world, a session that [generate_qr_session]
    issues carries the QR code of a payload from which [decode_qr_data]
    recovers exactly the session id, the class id and the issuer's id: both
    ids are UUID strings, which hold no colon. *)
Theorem issued_payload_round_trip env w class_id subject credentials response w' :
  reachable env w →
  generate_qr_session env class_id subject credentials w = (Ok response, w') →
  ∃ session issuer w1,
    require_role env [UserRole.CLASS_TEACHER; UserRole.SUB_TEACHER] credentials w
    = (Ok issuer, w1)
    ∧ qr_sessions (db w') = (qr_sessions (db w) ++ [session])%list
    ∧ QRSession.id session = QRCodeResponse.session_id response
    ∧ QRSession.class_id session = class_id
    ∧ QRSession.teacher_id session = User.id issuer
    ∧ QRSession.qr_code session = QRCodeResponse.qr_code_base64 response
    ∧ QRCodeResponse.qr_code_base64 response
      = generate_qr_code env
          (qr_data (QRSession.id session) (QRSession.class_id session)
                   (QRSession.teacher_id session))
    ∧ decode_qr_data
        (qr_data (QRSession.id session) (QRSession.class_id session)
                 (QRSession.teacher_id session))
      = Some (QRSession.id session, QRSession.class_id session,
              QRSession.teacher_id session).
Proof.
  intros Hr Hs.
  destruct (require_role env [UserRole.CLASS_TEACHER; UserRole.SUB_TEACHER] credentials w)
    as [[issuer|e] w1] eqn:Hg.
  2:{ unfold generate_qr_session in Hs. by rewrite (bind_Raise _ _ _ _ _ Hg) in Hs. }
  rewrite (generate_qr_session_cases _ _ _ _ _ _ _ Hg) in Hs.
  destruct (decide _); [done|]. cbv zeta in Hs. injection Hs as <- <-.
  eexists (QRSession.mk _ _ _ _ _ _ _), issuer, w1. simpl.
  split_and!; try reflexivity.
  apply decode_qr_data_qr_data.
  - apply UUID_str_no_colon.
  - apply require_role_inv in Hg as [Hu _].
    apply get_current_user_doc in Hu as (d & Hd & ->). simpl.
    apply reachable_users_have_uuids in Hr. unfold users_have_uuids in Hr.
    rewrite Forall_forall in Hr. destruct (Hr d Hd) as [m ->].
    apply UUID_str_no_colon.
Qed.

Lemma issued_payload_round_trip_witness :
  let env := scenario_env 1 in
  let w := after_student 1 in
  let out := generate_qr_session env "CS-101" "Mathematics" teacher_id w in
  reachable env w
  ∧ out.1 = Ok (QRCodeResponse.mk
                  (generate_qr_code env (qr_data session_id "CS-101" teacher_id))
                  session_id 906000000)
  ∧ ∃ session issuer w1,
      require_role env [UserRole.CLASS_TEACHER; UserRole.SUB_TEACHER] teacher_id w
      = (Ok issuer, w1)
      ∧ qr_sessions (db out.2) = (qr_sessions (db w) ++ [session])%list
      ∧ QRSession.id session = session_id
      ∧ QRSession.class_id session = "CS-101"
      ∧ QRSession.teacher_id session = User.id issuer
      ∧ decode_qr_data
          (qr_data (QRSession.id session) (QRSession.class_id session)
                   (QRSession.teacher_id session))
        = Some (QRSession.id session, QRSession.class_id session,
                QRSession.teacher_id session).
Proof.
  cbv zeta.
  assert (reachable (scenario_env 1) (after_student 1)) as Hr
    by (apply run_reachable; apply rtc_refl).
  assert (generate_qr_session (scenario_env 1) "CS-101" "Mathematics" teacher_id
            (after_student 1)
          = (Ok (QRCodeResponse.mk
                   (generate_qr_code (scenario_env 1)
                      (qr_data session_id "CS-101" teacher_id))
                   session_id 906000000),
             (generate_qr_session (scenario_env 1) "CS-101" "Mathematics" teacher_id
                (after_student 1)).2)) as Hs
    by (vm_compute; reflexivity).
  split_and!; [exact Hr|vm_compute; reflexivity|].
  destruct (issued_payload_round_trip _ _ _ _ _ _ _ Hr Hs)
    as (session & issuer & w1 & Hg & Hq & Hid & Hc & Ht & _ & _ & Hd).
  exists session, issuer, w1. split_and!; done.
Defined.

(** ** Verifying after the challenge expired *)



(** ** Registering a learner *)

(** C9: behind the class-teacher gate, [add_student] either finds the email
    taken and changes nothing, or stores exactly one new account whose role
    is [student] and whose class is the teacher's own, whatever role and
    class the request carried; the returned user says the same. *)
Theorem add_student_forces_role_and_class env student_data credentials teacher w w1 :
  require_role env [UserRole.CLASS_TEACHER] credentials w = (Ok teacher, w1) →
  match list_find (λ d, UserDoc.email d = UserCreate.email student_data) (users (db w)) with
  | Some _ =>
      (add_student env student_data credentials w).1
        = Raise (HTTPException 400 "Student already exists")
      ∧ db (add_student env student_data credentials w).2 = db w
  | None =>
      ∃ user_obj doc,
        (add_student env student_data credentials w).1 = Ok user_obj
        ∧ db (add_student env student_data credentials w).2
          = with_users (insert_one doc) (db w)
        ∧ User_of_doc doc = user_obj
        ∧ UserDoc.role doc = UserRole.STUDENT
        ∧ UserDoc.class_id doc = Some (User.class_id teacher)
        ∧ UserDoc.email doc = UserCreate.email student_data
        ∧ User.role user_obj = UserRole.STUDENT
        ∧ User.class_id user_obj = User.class_id teacher
  end.
Proof.
  intros Hg. rewrite (add_student_cases _ _ _ _ _ _ Hg).
  pose proof (require_role_world _ _ _ _ _ _ Hg) as ->.
  destruct (list_find _ _) as [[??]|]; simpl; [done|].
  eexists _, _. split_and!; reflexivity.
Qed.

(** The request asked for role [superadmin] in class [EE-202]; the account
    is a [student] of the teacher's class [CS-101]. *)
Lemma add_student_forces_role_and_class_witness :
  let env := scenario_env 1 in
  let w := after_registration 1 in
  let out := add_student env student_data teacher_id w in
  require_role env [UserRole.CLASS_TEACHER] teacher_id w = (Ok (scenario_teacher 1), tick w)
  ∧ UserCreate.role student_data = UserRole.SUPERADMIN
  ∧ UserCreate.class_id student_data = Some "EE-202"
  ∧ ∃ user_obj doc,
      out.1 = Ok user_obj
      ∧ db out.2 = with_users (insert_one doc) (db w)
      ∧ User_of_doc doc = user_obj
      ∧ UserDoc.role doc = UserRole.STUDENT
      ∧ UserDoc.class_id doc = Some (Some "CS-101")
      ∧ UserDoc.email doc = "student@school.com"
      ∧ User.role user_obj = UserRole.STUDENT
      ∧ User.class_id user_obj = Some "CS-101".
Proof.
  cbv zeta.
  assert (require_role (scenario_env 1) [UserRole.CLASS_TEACHER] teacher_id
            (after_registration 1)
          = (Ok (scenario_teacher 1), tick (after_registration 1))) as Hg
    by (vm_compute; reflexivity).
  split_and!; [exact Hg|vm_compute; reflexivity|vm_compute; reflexivity|].
  pose proof (add_student_forces_role_and_class _ student_data _ _ _ _ Hg) as Ha.
  assert (list_find (λ d, UserDoc.email d = UserCreate.email student_data)
            (users (db (after_registration 1))) = None) as Hf
    by (vm_compute; reflexivity).
  rewrite Hf in Ha. exact Ha.
Defined.

(** ** Logging in as a registered learner *)

(** C10: the account [add_student] stores has no [hashed_password]; in the
    world it leaves and in every world later requests lead to, a password
    login with the account's email raises [KeyError] on the missing key,
    whatever the password, instead of answering 401. *)
Theorem login_of_added_student_raises_KeyError env student_data credentials w user_obj w' :
  add_student env student_data credentials w = (Ok user_obj, w') →
  (∃ doc, users (db w') = (users (db w) ++ [doc])%list
          ∧ User_of_doc doc = user_obj
          ∧ UserDoc.email doc = UserCreate.email student_data
          ∧ UserDoc.hashed_password doc = None)
  ∧ ∀ password w0 w2,
      db w0 = db w' → rtc (step env) w0 w2 →
      login env (UserLogin.mk (UserCreate.email student_data) password) w2
      = (Raise (KeyError "hashed_password"), w2).
Proof.
  intros Ha.
  destruct (require_role env [UserRole.CLASS_TEACHER] credentials w)
    as [[teacher|e] w1] eqn:Hg.
  2:{ unfold add_student in Ha. by rewrite (bind_Raise _ _ _ _ _ Hg) in Ha. }
  rewrite (add_student_cases _ _ _ _ _ _ Hg) in Ha.
  destruct (list_find _ _) as [[??]|] eqn:Hf; [done|].
  injection Ha as <- <-. simpl. split.
  - eexists. split_and!; reflexivity.
  - intros password w0 w2 Hdb Hsteps.
    destruct (later_users _ _ _ Hsteps) as [later Hu].
    rewrite Hdb in Hu. unfold with_users, insert_one in Hu. cbn [users db] in Hu.
    unfold login, bind, query. cbn [UserLogin.email]. rewrite Hu.
    erewrite list_find_app_l by (by apply list_find_snoc).
    reflexivity.
Qed.

Lemma login_of_added_student_raises_KeyError_witness :
  let env := scenario_env 1 in
  let w := after_registration 1 in
  let out := add_student env student_data teacher_id w in
  out.1 = Ok (scenario_student 1)
  ∧ login env (UserLogin.mk "student@school.com" "dummy") out.2
    = (Raise (KeyError "hashed_password"), out.2).
Proof.
  cbv zeta.
  assert (add_student (scenario_env 1) student_data teacher_id (after_registration 1)
          = (Ok (scenario_student 1),
             (add_student (scenario_env 1) student_data teacher_id
                (after_registration 1)).2)) as Ha
    by (vm_compute; reflexivity).
  split; [vm_compute; reflexivity|].
  destruct (login_of_added_student_raises_KeyError _ _ _ _ _ _ Ha) as [_ Hl].
  apply (Hl "dummy" _ _ eq_refl). apply rtc_refl.
Defined.

(** * More properties of the server *)

(** ** Every request is one write *)

Lemma get_current_user_find env credentials w u w1 :
  get_current_user env credentials w = (Ok u, w1) →
  ∃ j d, list_find (λ d, UserDoc.id d = User.id u) (users (db w)) = Some (j, d)
         ∧ u = User_of_doc d.
Proof.
  unfold get_current_user, bind, now, query, raise, ret. simpl.
  destruct (jwt_decode _ _ _) as [[user_id|]|]; simpl; try done.
  destruct (list_find _ _) as [[i d]|] eqn:Hf; simpl; [|done].
  intros [= <- _]. exists i, d. split; [|done].
  pose proof Hf as (_ & <- & _)%list_find_Some. done.
Qed.

Lemma require_role_find env allowed credentials w u w1 :
  require_role env allowed credentials w = (Ok u, w1) →
  ∃ j d, list_find (λ d, UserDoc.id d = User.id u) (users (db w)) = Some (j, d)
         ∧ u = User_of_doc d ∧ UserDoc.role d ∈ allowed ∧ d ∈ users (db w).
Proof.
  intros [Hu Hr]%require_role_inv.
  apply get_current_user_find in Hu as (j & d & Hf & ->).
  exists j, d. split_and!; try done.
  apply list_find_Some in Hf as (Hl & _). by eapply list_elem_of_lookup_2.
Qed.

Lemma list_find_None_Forall {A} (P : A → Prop) `{∀ x, Decision (P x)} (l : list A) :
  list_find P l = None → Forall (λ x, ¬ P x) l.
Proof. by rewrite list_find_None. Qed.

Lemma register_user_cases env user_data credentials caller w w1 :
  require_role env [UserRole.SUPERADMIN; UserRole.SUBADMIN] credentials w
  = (Ok caller, w1) →
  register_user env user_data credentials w =
  match list_find (λ d, UserDoc.email d = UserCreate.email user_data) (users (db w)) with
  | Some _ => (Raise (HTTPException 400 "Email already registered"), w1)
  | None =>
      let user_obj :=
        User.mk (UUID_str (uuid4_int (urandom128 env (uuid_draws w1))))
          (UserCreate.email user_data) (UserCreate.username user_data)
          (UserCreate.role user_data) (UserCreate.department_id user_data)
          (UserCreate.class_id user_data) (UserCreate.roll_no user_data)
          (UserCreate.working_time user_data)
          (wall_clock env (clock_reads w1)) true in
      (Ok user_obj,
       mkWorld
         (with_users
            (insert_one
               (User_dict user_obj
                  (Some (get_password_hash env (UserCreate.password user_data)))))
            (db w))
         (S (clock_reads w1)) (S (uuid_draws w1)) (random_draws w1)
         (background_tasks w1) (log w1))
  end.
Proof.
  intros Hg. unfold register_user. rewrite (bind_Ok _ _ _ _ _ Hg).
  apply require_role_world in Hg. subst w1.
  unfold bind, query. simpl.
  destruct (list_find _ _) as [[??]|]; reflexivity.
Qed.

Lemma verify_otp_cases env verification credentials student w w1 :
  require_role env [UserRole.STUDENT] credentials w = (Ok student, w1) →
  verify_otp env verification credentials w =
  match list_find
          (λ c, OTPRequest.student_id c = User.id student
                ∧ OTPRequest.qr_session_id c = OTPVerification.qr_session_id verification
                ∧ OTPRequest.otp c = OTPVerification.otp verification
                ∧ OTPRequest.verified c = false)
          (otp_requests (db w)) with
  | None => (Raise (HTTPException 400 "Invalid OTP"), w1)
  | Some (i, c) =>
      if decide (OTPRequest.expires_at c < wall_clock env (clock_reads w1))
      then (Raise (HTTPException 400 "OTP has expired"), tick w1)
      else
        match list_find
                (λ q, QRSession.id q = OTPVerification.qr_session_id verification)
                (qr_sessions (db w)) with
        | None =>
            (Raise (TypeError "argument after ** must be a mapping, not NoneType"),
             tick w1)
        | Some (_, q) =>
            (Ok (VerifyResponse.mk "Attendance marked successfully"),
             mkWorld
               (with_otp_requests (alter OTPRequest.set_verified i)
                  (with_attendance
                     (insert_one
                        (Attendance.mk
                           (UUID_str (uuid4_int (urandom128 env (uuid_draws w1))))
                           (User.id student) (QRSession.class_id q)
                           (QRSession.teacher_id q) (QRSession.subject q)
                           (wall_clock env (S (clock_reads w1))) "present"
                           (OTPVerification.qr_session_id verification)
                           (wall_clock env (S (S (clock_reads w1))))))
                     (db w)))
               (S (S (S (clock_reads w1)))) (S (uuid_draws w1)) (random_draws w1)
               (background_tasks w1) (log w1))
        end
  end.
Proof.
  intros Hg. unfold verify_otp. rewrite (bind_Ok _ _ _ _ _ Hg).
  assert (db w = db w1) as -> by (by rewrite (require_role_world _ _ _ _ _ _ Hg)).
  clear Hg.
  unfold bind at 1. unfold query at 1.
  destruct (list_find _ _) as [[i c]|]; [|done].
  unfold bind at 1. unfold now at 1.
  destruct (decide _); [done|].
  unfold bind at 1. unfold query at 1. simpl.
  destruct (list_find _ _) as [[??]|]; reflexivity.
Qed.

Lemma create_department_cases env name credentials admin w w1 :
  require_role env [UserRole.SUPERADMIN] credentials w = (Ok admin, w1) →
  create_department env name credentials w =
  let department :=
    Department.mk (UUID_str (uuid4_int (urandom128 env (uuid_draws w1)))) name
                  (wall_clock env (clock_reads w1)) (User.id admin) in
  (Ok department,
   mkWorld (with_departments (insert_one department) (db w)) (S (clock_reads w1))
           (S (uuid_draws w1)) (random_draws w1) (background_tasks w1) (log w1)).
Proof.
  intros Hg. unfold create_department. rewrite (bind_Ok _ _ _ _ _ Hg).
  by assert (db w = db w1) as -> by (by rewrite (require_role_world _ _ _ _ _ _ Hg)).
Qed.

Lemma create_class_cases env name department_id credentials subadmin w w1 :
  require_role env [UserRole.SUBADMIN] credentials w = (Ok subadmin, w1) →
  create_class env name department_id credentials w =
  match list_find (λ d, Department.id d = department_id) (departments (db w)) with
  | None => (Raise (HTTPException 404 "Department not found"), w1)
  | Some _ =>
      let class_obj :=
        Class.mk (UUID_str (uuid4_int (urandom128 env (uuid_draws w1)))) name department_id
                 (wall_clock env (clock_reads w1)) (User.id subadmin) in
      (Ok class_obj,
       mkWorld (with_classes (insert_one class_obj) (db w)) (S (clock_reads w1))
               (S (uuid_draws w1)) (random_draws w1) (background_tasks w1) (log w1))
  end.
Proof.
  intros Hg. unfold create_class. rewrite (bind_Ok _ _ _ _ _ Hg).
  assert (db w = db w1) as -> by (by rewrite (require_role_world _ _ _ _ _ _ Hg)).
  clear Hg.
  unfold bind at 1. unfold query at 1.
  destruct (list_find _ _) as [[i d]|]; reflexivity.
Qed.

Ltac no_write := simpl; by apply write_nothing.

(** The server refines the writes: whatever a handler does to the store is
    one of them. *)
Lemma handle_writes env r w : write env (db w) (db (handle env r w).2).
Proof.
  destruct r; unfold handle; rewrite respond_snd.
  - unfold create_default_admin. steps.
    destruct (list_find _ _) as [[??]|] eqn:Hf; simpl; [apply write_nothing|].
    apply write_default_admin. by apply list_find_None_Forall in Hf.
  - unfold root. steps. no_write.
  - destruct (require_role env [UserRole.SUPERADMIN; UserRole.SUBADMIN] credentials w)
      as [[u|e] w1] eqn:Hg.
    2:{ unfold register_user. rewrite (bind_Raise _ _ _ _ _ Hg).
        apply require_role_world in Hg as ->. no_write. }
    rewrite (register_user_cases _ _ _ _ _ _ Hg).
    pose proof (require_role_find _ _ _ _ _ _ Hg) as (j & d & _ & _ & _ & Hd).
    apply require_role_world in Hg as ->.
    destruct (list_find _ _) as [[??]|] eqn:Hf; [no_write|]. simpl.
    eapply write_account; [done| |reflexivity].
    by apply list_find_None_Forall in Hf.
  - unfold login, create_access_token. steps. repeat branch; no_write.
  - unfold student_login, create_access_token. steps. repeat branch; no_write.
  - unfold get_current_user_info.
    destruct (get_current_user _ _ _) as [? w1] eqn:Hg.
    apply get_current_user_world in Hg as ->. no_write.
  - destruct (require_role env [UserRole.SUPERADMIN] credentials w) as [[u|e] w1] eqn:Hg.
    2:{ unfold create_department. rewrite (bind_Raise _ _ _ _ _ Hg).
        apply require_role_world in Hg as ->. no_write. }
    rewrite (create_department_cases _ _ _ _ _ _ Hg).
    pose proof (require_role_find _ _ _ _ _ _ Hg) as (j & d & Hf & -> & Hr & _).
    simpl. apply write_department. by exists j, d.
  - unfold get_departments. gate env Hg; [|no_write]. steps. no_write.
  - destruct (require_role env [UserRole.SUBADMIN] credentials w) as [[u|e] w1] eqn:Hg.
    2:{ unfold create_class. rewrite (bind_Raise _ _ _ _ _ Hg).
        apply require_role_world in Hg as ->. no_write. }
    rewrite (create_class_cases _ _ _ _ _ _ _ Hg).
    pose proof (require_role_find _ _ _ _ _ _ Hg) as (j & d & Hfu & -> & Hr & _).
    apply require_role_world in Hg as ->.
    destruct (list_find _ (departments _)) as [[k dep]|] eqn:Hf; simpl;
      [|apply write_nothing].
    apply list_find_Some in Hf as (Hl & Hid & _).
    eapply write_class; [by exists j, d|by eapply list_elem_of_lookup_2|done].
  - unfold get_classes. gate env Hg; [|no_write]. steps. no_write.
  - unfold create_schedule. gate env Hg; [|no_write]. steps.
    repeat branch; apply write_schedule.
  - unfold get_schedules. gate env Hg; [|no_write]. steps. no_write.
  - destruct (require_role env [UserRole.CLASS_TEACHER; UserRole.SUB_TEACHER]
                credentials w) as [[u|e] w1] eqn:Hg.
    2:{ unfold generate_qr_session. rewrite (bind_Raise _ _ _ _ _ Hg).
        apply require_role_world in Hg as ->. no_write. }
    rewrite (generate_qr_session_cases _ _ _ _ _ _ _ Hg).
    pose proof (require_role_find _ _ _ _ _ _ Hg) as (j & d & Hfu & -> & Hr & _).
    apply require_role_world in Hg as ->.
    destruct (decide _) as [|Hn]; simpl; [apply write_nothing|].
    apply write_session. exists j, d. simpl in *. split_and!; [done..|].
    intros Hct.
    destruct (decide (default None (UserDoc.class_id d) = Some class_id)); [done|].
    by destruct Hn.
  - destruct (require_role env [UserRole.STUDENT] credentials w) as [[u|e] w1] eqn:Hg.
    2:{ unfold scan_qr_code. rewrite (bind_Raise _ _ _ _ _ Hg).
        apply require_role_world in Hg as ->. no_write. }
    destruct (scan_qr_code_cases env qr_session_id _ _ _ _ Hg) as (otp & Hlen & _ & ->).
    pose proof (require_role_find _ _ _ _ _ _ Hg) as (j & d & Hfu & -> & Hr & _).
    apply list_elem_of_singleton in Hr.
    apply require_role_world in Hg as ->.
    destruct (list_find _ (qr_sessions _)) as [[k q]|] eqn:Hq; [|no_write].
    destruct (decide _); [no_write|].
    destruct (decide _) as [|Hc]; [no_write|].
    destruct (list_find _ (attendance _)) as [[??]|]; [no_write|]. simpl.
    eapply write_challenge; simpl; try done.
    destruct (decide (default None (UserDoc.class_id d) = Some (QRSession.class_id q)));
      [done|]. by destruct Hc.
  - destruct (require_role env [UserRole.STUDENT] credentials w) as [[u|e] w1] eqn:Hg.
    2:{ unfold verify_otp. rewrite (bind_Raise _ _ _ _ _ Hg).
        apply require_role_world in Hg as ->. no_write. }
    rewrite (verify_otp_cases _ _ _ _ _ _ Hg).
    apply require_role_world in Hg as ->.
    destruct (list_find _ (otp_requests _)) as [[i c]|] eqn:Hc; [|no_write].
    destruct (decide _); [no_write|].
    destruct (list_find _ (qr_sessions _)) as [[k q]|] eqn:Hq; [|no_write]. simpl.
    apply list_find_Some in Hc as (Hl & (Hs & Hsid & _ & Hv) & _).
    rewrite <- Hs, <- Hsid. rewrite <- Hsid in Hq.
    by eapply write_attendance.
  - destruct (require_role env [UserRole.CLASS_TEACHER] credentials w) as [[u|e] w1] eqn:Hg.
    2:{ unfold add_student. rewrite (bind_Raise _ _ _ _ _ Hg).
        apply require_role_world in Hg as ->. no_write. }
    rewrite (add_student_cases _ _ _ _ _ _ Hg).
    pose proof (require_role_find _ _ _ _ _ _ Hg) as (j & d & _ & _ & _ & Hd).
    apply require_role_world in Hg as ->.
    destruct (list_find _ _) as [[??]|] eqn:Hf; [no_write|]. simpl.
    eapply write_account; [done| |reflexivity].
    by apply list_find_None_Forall in Hf.
  - unfold get_students. gate env Hg; [|no_write]. steps. no_write.
  - unfold get_attendance_report. gate env Hg; [|no_write].
    unfold bind at 1.
    destruct (match truthy start_date with _ => _ end (tick w)) as [[range|e] w2] eqn:Hr.
    + assert (w2 = tick w) as ->.
      { revert Hr. unfold ret, raise. repeat case_match; by intros [= _ <-]. }
      unfold bind, query.
      pose proof (enrich_all_world
        (filter (report_query class_id range current_user) (attendance (db (tick w))))
        (tick w)) as He.
      destruct (enrich_all _ _) as [[?|?] ?]; simpl in *; subst; no_write.
    + assert (w2 = tick w) as ->.
      { revert Hr. unfold ret, raise. repeat case_match; by intros [= _ <-]. }
      no_write.
  - unfold get_dashboard_data. gate env Hg; [|no_write]. steps.
    repeat branch; no_write.
Qed.

Lemma step_writes env w w' : step env w w' → write env (db w) (db w').
Proof.
  intros [r <-]. pose proof (handle_writes env r w) as Hw. unfold serve.
  destruct (handle env r w) as [[a|e] w']; simpl in *; [|done].
  by destruct (run_tasks_frame (background_tasks w') (clear_tasks w')) as [-> _].
Qed.

(** ** Nothing is deleted or rewritten *)

Lemma consumed_or_same_refl l : Forall2 consumed_or_same l l.
Proof. apply Forall2_same_length_lookup_2; [done|]. intros i x y -> [= ->]. by left. Qed.

Lemma consumed_or_same_alter (l : list OTPRequest.t) i c :
  l !! i = Some c → OTPRequest.verified c = false →
  Forall2 consumed_or_same l (alter OTPRequest.set_verified i l).
Proof.
  intros Hi Hv. apply Forall2_same_length_lookup_2; [by rewrite length_alter|].
  intros j x y Hx Hy. destruct (decide (i = j)) as [<-|Hne].
  - rewrite list_lookup_alter_eq, Hi in Hy. injection Hy as <-.
    rewrite Hi in Hx. injection Hx as <-. by right.
  - rewrite list_lookup_alter_ne, Hx in Hy by done. injection Hy as <-. by left.
Qed.

Lemma consumed_or_same_trans c1 c2 c3 :
  consumed_or_same c1 c2 → consumed_or_same c2 c3 → consumed_or_same c1 c3.
Proof.
  intros [->|[Hv ->]] [->|[Hv' ->]]; try (by left); by right.
Qed.

Lemma write_grows env s s' : write env s s' → grows s s'.
Proof.
  destruct 1; split; simpl; try done; try (by apply prefix_app_r);
    try (by exists (otp_requests s), []; rewrite app_nil_r;
            split; [|apply consumed_or_same_refl]);
    try (by exists (otp_requests s), [c]; split; [|apply consumed_or_same_refl]).
  - eexists _, []. rewrite app_nil_r. split; [done|].
    by eapply consumed_or_same_alter.
Qed.

Lemma grows_refl s : grows s s.
Proof.
  split; try done. exists (otp_requests s), []. rewrite app_nil_r.
  split; [done|apply consumed_or_same_refl].
Qed.

Lemma grows_trans s1 s2 s3 : grows s1 s2 → grows s2 s3 → grows s1 s3.
Proof.
  intros [] []. split; try (by etrans).
  destruct grows_otp_requests0 as (k1 & l1 & E1 & F1).
  destruct grows_otp_requests1 as (k2 & l2 & E2 & F2).
  rewrite E1 in F2. apply Forall2_app_inv_l in F2 as (k1' & l1' & F1' & _ & ->).
  exists k1', (l1' ++ l2)%list. split; [by rewrite E2, app_assoc|].
  eapply Forall2_trans; [|done..]. apply consumed_or_same_trans.
Qed.

Lemma steps_grow env w w' : rtc (step env) w w' → grows (db w) (db w').
Proof.
  revert w'. apply rtc_ind_r; [apply grows_refl|].
  intros y z _ Hyz IH. eapply grows_trans; [done|].
  eapply write_grows. by apply step_writes.
Qed.

Lemma list_find_prefix {A} (P : A → Prop) `{∀ x, Decision (P x)} (l l' : list A) i x :
  l `prefix_of` l' → list_find P l = Some (i, x) → list_find P l' = Some (i, x).
Proof. intros [k ->] Hf. by apply list_find_app_l. Qed.

(** ** The invariants hold in every reachable world *)

Lemma challenge_ok_grows s s' c : grows s s' → challenge_ok s c → challenge_ok s' c.
Proof.
  intros [] (j & d & k & q & Hu & Hr & Hq & Hc & Hl).
  exists j, d, k, q. split_and!; try done; by eapply list_find_prefix.
Qed.

Lemma record_ok_grows s s' a : grows s s' → record_ok s a → record_ok s' a.
Proof.
  intros [] (j & d & k & q & Hu & Hr & Hc & Hq & H1 & H2 & H3 & H4).
  exists j, d, k, q. split_and!; try done; by eapply list_find_prefix.
Qed.

Lemma consumed_alter student session (l : list OTPRequest.t) i c :
  l !! i = Some c → OTPRequest.verified c = false →
  length (filter (λ c, OTPRequest.student_id c = student
                       ∧ OTPRequest.qr_session_id c = session
                       ∧ OTPRequest.verified c = true)
                 (alter OTPRequest.set_verified i l))
  = (length (filter (λ c, OTPRequest.student_id c = student
                          ∧ OTPRequest.qr_session_id c = session
                          ∧ OTPRequest.verified c = true) l)
     + if decide (OTPRequest.student_id c = student
                  ∧ OTPRequest.qr_session_id c = session) then 1 else 0)%nat.
Proof.
  intros Hi Hv. pose proof (lookup_lt_Some _ _ _ Hi) as Hlt.
  rewrite <- (take_drop_middle l i c Hi) at 1 2.
  rewrite alter_app_r_alt by (rewrite length_take; lia).
  rewrite length_take, Nat.min_l, Nat.sub_diag by lia. simpl.
  rewrite !filter_app, !filter_cons, !length_app. simpl.
  rewrite (decide_False (P := _ ∧ _ ∧ OTPRequest.verified c = true))
    by (rewrite Hv; by intros (_ & _ & ?)).
  destruct (decide (OTPRequest.student_id c = student
                    ∧ OTPRequest.qr_session_id c = session)) as [[??]|Hn].
  - rewrite decide_True by done. simpl. lia.
  - rewrite decide_False by (intros (? & ? & _); by apply Hn). lia.
Qed.

Lemma write_inv env s s' : write env s s' → store_inv env s → store_inv env s'.
Proof.
  intros Hw Hinv. pose proof (write_grows _ _ _ Hw) as Hg.
  destruct Hinv as [Hadmin Hemails Hkeys Hclasses Hch Hrec Hcount].
  assert (Forall (challenge_ok s') (otp_requests s)) as Hch'
    by (eapply Forall_impl; [done|]; intros; by eapply challenge_ok_grows).
  assert (Forall (record_ok s') (attendance s)) as Hrec'
    by (eapply Forall_impl; [done|]; intros; by eapply record_ok_grows).
  unfold admin_first, emails_unique, roll_no_keys, classes_have_departments in *.
  destruct Hw as [ | caller u h n Hcaller Hfresh Hid | n created_at Hnosuper | d _
                 | c dep _ Hdep Hdepid | sc | q _ | c j d k q Hu Hrole Hq Hclass Hv Hlen
                 | i c k q id date created_at Hi Hv Hq ].
  - done.
  - (* an account: the caller is stored, so the admin is and stays first *)
    split; try done; unfold admin_first, emails_unique, roll_no_keys; simpl.
    + destruct Hadmin as [Hnil|(m & t & H0)].
      { rewrite Hnil in Hcaller. by apply elem_of_nil in Hcaller. }
      right. exists m, t. unfold insert_one. by apply lookup_app_l_Some.
    + unfold insert_one. rewrite fmap_app. apply NoDup_app. split_and!; [done| |].
      * intros e He Hin. apply list_elem_of_singleton in Hin. subst e.
        apply list_elem_of_fmap in He as (d & Hd & Hin).
        rewrite Forall_forall in Hfresh. by destruct (Hfresh d Hin).
      * apply NoDup_singleton.
    + apply Forall_app. split; [done|]. by constructor.
  - (* the default admin: only into an empty collection *)
    assert (users s = []) as Hnil.
    { destruct Hadmin as [Hnil|(m & t & H0)]; [done|].
      rewrite Forall_forall in Hnosuper.
      by destruct (Hnosuper _ (list_elem_of_lookup_2 _ _ _ H0)). }
    split; try done; unfold admin_first, emails_unique, roll_no_keys; simpl;
      rewrite Hnil; simpl.
    + right. by exists n, created_at.
    + apply NoDup_singleton.
    + by constructor.
  - split; try done. unfold classes_have_departments. simpl.
    eapply Forall_impl; [done|]. intros c (dep & Hin & Hid). exists dep.
    split; [|done]. unfold insert_one. apply elem_of_app. by left.
  - split; try done. unfold classes_have_departments. simpl.
    unfold insert_one. apply Forall_app. split; [done|].
    constructor; [|done]. by exists dep.
  - by split.
  - by split.
  - split; try done; simpl.
    + unfold insert_one. apply Forall_app. split; [done|]. constructor; [|done].
      by exists j, d, k, q.
    + intros student session. unfold consumed_of, insert_one. simpl.
      rewrite filter_app.
      rewrite filter_cons, decide_False by (rewrite Hv; by intros (_ & _ & ?)).
      simpl. rewrite app_nil_r. apply Hcount.
  - split; try done; simpl.
    + apply Forall_alter; [done|]. intros x _ (j & d & k' & q' & ?).
      by exists j, d, k', q'.
    + unfold insert_one. apply Forall_app. split; [done|]. constructor; [|done].
      rewrite Forall_forall in Hch.
      destruct (Hch c (list_elem_of_lookup_2 _ _ _ Hi))
        as (j & d & k' & q' & Hu & Hr & Hq' & Hc & _).
      rewrite Hq in Hq'. injection Hq' as <- <-.
      exists j, d, k, q. simpl. split_and!; done.
    + intros student session. unfold records_of, consumed_of, insert_one. simpl.
      rewrite (consumed_alter _ _ _ _ _ Hi Hv), filter_app, length_app.
      specialize (Hcount student session). unfold records_of, consumed_of in Hcount.
      rewrite Hcount. f_equal. rewrite filter_cons. simpl. by destruct (decide _).
Qed.

Lemma initial_inv env : store_inv env (db initial_world).
Proof.
  split; simpl.
  - by left.
  - apply NoDup_nil_2.
  - constructor.
  - constructor.
  - constructor.
  - constructor.
  - done.
Qed.

Lemma steps_inv env w w' :
  store_inv env (db w) → rtc (step env) w w' → store_inv env (db w').
Proof.
  intros Hinv. revert w'. apply rtc_ind_r; [done|].
  intros y z _ Hyz IH. eapply write_inv; [|done]. by apply step_writes.
Qed.

Lemma reachable_inv env w : reachable env w → store_inv env (db w).
Proof. intros Hr. exact (steps_inv env initial_world w (initial_inv env) Hr). Qed.

Lemma authorised_grows s s' id roles : grows s s' → authorised s id roles → authorised s' id roles.
Proof. intros [] (j & d & Hf & Hr). exists j, d. split; [by eapply list_find_prefix|done]. Qed.

Lemma session_ok_grows s s' q : grows s s' → session_ok s q → session_ok s' q.
Proof.
  intros [] (j & d & Hf & Hr & Hc). exists j, d.
  split_and!; [by eapply list_find_prefix|done..].
Qed.

Lemma write_provenance env s s' : write env s s' → provenance s → provenance s'.
Proof.
  intros Hw [Hd Hc Hq]. pose proof (write_grows _ _ _ Hw) as Hg.
  assert (Forall (λ d, authorised s' (Department.created_by d) [UserRole.SUPERADMIN])
                 (departments s)) as Hd'
    by (eapply Forall_impl; [done|]; intros; by eapply authorised_grows).
  assert (Forall (λ c, authorised s' (Class.created_by c) [UserRole.SUBADMIN])
                 (classes s)) as Hc'
    by (eapply Forall_impl; [done|]; intros; by eapply authorised_grows).
  assert (Forall (session_ok s') (qr_sessions s)) as Hq'
    by (eapply Forall_impl; [done|]; intros; by eapply session_ok_grows).
  destruct Hw as [ | caller u h n _ _ _ | n created_at _ | d Ha
                 | c dep Ha _ _ | sc | q Ha | c j d k q _ _ _ _ _ _
                 | i c k q id date created_at _ _ _ ]; try (by split).
  - split; [|done..]. simpl. unfold insert_one. apply Forall_app. split; [done|].
    by constructor.
  - split; [done| |done]. simpl. unfold insert_one. apply Forall_app. split; [done|].
    by constructor.
  - split; [done..|]. simpl. unfold insert_one. apply Forall_app. split; [done|].
    by constructor.
Qed.

Lemma reachable_provenance env w : reachable env w → provenance (db w).
Proof.
  unfold reachable. revert w. apply rtc_ind_r.
  - split; constructor.
  - intros y z _ Hyz IH. eapply write_provenance; [|done]. by apply step_writes.
Qed.

Lemma run_steps env rs w : rtc (step env) w (run env rs w).2.
Proof.
  revert w. induction rs as [|r rest IH]; intros w; simpl; [done|].
  destruct (serve env r w) as [a w'] eqn:Hs.
  specialize (IH w'). destruct (run env rest w') as [l w'']. simpl in *.
  eapply rtc_l; [|done]. exists r. by rewrite Hs.
Qed.

(** ** Accounts and logins *)

(** X1: no request deletes or rewrites a document.  Along any sequence of
    requests each of the users, departments, classes, schedules, sessions
    and attendance records is kept in place with later documents added at
    the end, and a stored challenge stays where it is, unchanged or with
    its [verified] flag turned from false to true. *)
Theorem nothing_is_deleted_or_rewritten env w w' :
  rtc (step env) w w' →
  users (db w) `prefix_of` users (db w')
  ∧ departments (db w) `prefix_of` departments (db w')
  ∧ classes (db w) `prefix_of` classes (db w')
  ∧ schedules (db w) `prefix_of` schedules (db w')
  ∧ qr_sessions (db w) `prefix_of` qr_sessions (db w')
  ∧ attendance (db w) `prefix_of` attendance (db w')
  ∧ ∀ i c, otp_requests (db w) !! i = Some c →
      ∃ c', otp_requests (db w') !! i = Some c'
            ∧ (c' = c ∨ (OTPRequest.verified c = false ∧ c' = OTPRequest.set_verified c)).
Proof.
  intros [? ? ? ? ? ? (kept & later & E & F)]%steps_grow. split_and!; try done.
  intros i c Hi.
  destruct (Forall2_lookup_l _ _ _ _ _ F Hi) as (c' & Hk & Hc).
  exists c'. split; [|done]. rewrite E. by apply lookup_app_l_Some.
Qed.

Lemma nothing_is_deleted_or_rewritten_witness :
  let env := scenario_env 1 in
  let w := after_scan 1 in
  let w' := (run env [VerifyOtp (OTPVerification.mk session_id "012345") student_id] w).2 in
  otp_requests (db w) !! 0%nat
  = Some (OTPRequest.mk student_id session_id "012345" 310000000 false 11000000)
  ∧ users (db w) `prefix_of` users (db w')
  ∧ attendance (db w) `prefix_of` attendance (db w')
  ∧ ∃ c', otp_requests (db w') !! 0%nat = Some c'
          ∧ (c' = OTPRequest.mk student_id session_id "012345" 310000000 false 11000000
             ∨ c' = OTPRequest.mk student_id session_id "012345" 310000000 true 11000000).
Proof.
  cbv zeta.
  assert (otp_requests (db (after_scan 1)) !! 0%nat
          = Some (OTPRequest.mk student_id session_id "012345" 310000000 false 11000000))
    as Hc by (vm_compute; reflexivity).
  destruct (nothing_is_deleted_or_rewritten (scenario_env 1) (after_scan 1) _
              (run_steps (scenario_env 1)
                 [VerifyOtp (OTPVerification.mk session_id "012345") student_id]
                 (after_scan 1)))
    as (Hu & _ & _ & _ & _ & Ha & Ho).
  split_and!; [exact Hc|exact Hu|exact Ha|].
  destruct (Ho _ _ Hc) as (c' & Hl & Hs). exists c'. split; [exact Hl|].
  destruct Hs as [->|[_ ->]]; [by left|by right].
Defined.



(** X3: once any account exists the first one is the default admin, and in
    every reachable world it logs in with the fixed password: [login]
    returns a bearer token for its id that expires 24 hours after the clock
    reading.  Running the startup hook again then leaves the store as it
    is. *)
Theorem default_admin_can_always_log_in env w :
  reachable env w → users (db w) ≠ [] →
  ∃ admin,
    users (db w) !! 0%nat = Some admin
    ∧ UserDoc.role admin = UserRole.SUPERADMIN
    ∧ UserDoc.email admin = "admin@school.com"
    ∧ login env (UserLogin.mk "admin@school.com" "admin123") w
      = (Ok (Token.mk
               (jwt_encode env (UserDoc.id admin)
                  (wall_clock env (clock_reads w)
                   + timedelta_minutes ACCESS_TOKEN_EXPIRE_MINUTES))
               "bearer" (User_of_doc admin)),
         tick w)
    ∧ db (serve env Startup w).2 = db w.
Proof.
  intros Hr Hne. destruct (reachable_inv env w Hr) as [[Hnil|(n & t & H0)] _ _ _ _ _ _];
    [done|].
  exists (default_admin_doc env (UUID_str n) t). split_and!; try done.
  - assert (list_find (λ d, UserDoc.email d = "admin@school.com") (users (db w))
            = Some (0%nat, default_admin_doc env (UUID_str n) t)) as Hf.
    { apply list_find_Some. split_and!; [done|done|]. intros; lia. }
    unfold login, bind, query. simpl. rewrite Hf. simpl.
    unfold verify_password. rewrite bool_decide_eq_true_2 by done.
    reflexivity.
  - assert (list_find (λ d, UserDoc.role d = UserRole.SUPERADMIN) (users (db w))
            = Some (0%nat, default_admin_doc env (UUID_str n) t)) as Hf.
    { apply list_find_Some. split_and!; [done|done|]. intros; lia. }
    unfold serve, handle, respond, create_default_admin, bind, query, ret. simpl.
    rewrite Hf. simpl.
    by rewrite (proj1 (run_tasks_frame (background_tasks w) (clear_tasks w))).
Qed.

Lemma default_admin_can_always_log_in_witness :
  let env := scenario_env 1 in
  let w := after_setup 1 in
  length (users (db w)) = 3%nat
  ∧ ∃ admin,
      users (db w) !! 0%nat = Some admin
      ∧ UserDoc.role admin = UserRole.SUPERADMIN
      ∧ login env (UserLogin.mk "admin@school.com" "admin123") w
        = (Ok (Token.mk
                 (jwt_encode env (UserDoc.id admin)
                    (wall_clock env (clock_reads w)
                     + timedelta_minutes ACCESS_TOKEN_EXPIRE_MINUTES))
                 "bearer" (User_of_doc admin)),
           tick w)
      ∧ db (serve env Startup w).2 = db w.
Proof.
  cbv zeta. split; [vm_compute; reflexivity|].
  assert (reachable (scenario_env 1) (after_setup 1)) as Hr
    by (apply run_reachable, rtc_refl).
  assert (users (db (after_setup 1)) ≠ []) as Hne by (vm_compute; discriminate).
  destruct (default_admin_can_always_log_in _ _ Hr Hne) as (admin & H0 & H1 & _ & H2 & H3).
  exists admin. split_and!; [exact H0|exact H1|exact H2|exact H3].
Defined.

(** X4: [register_user] stores the submitted role as it is and the SHA-256
    of the password; from then on, in every later world, a login with the
    registered email succeeds exactly when the password hashes to the
    stored hash, returning a bearer token for the new user's id that
    expires 24 hours after the clock reading, and answers 401 otherwise. *)
Theorem registered_user_logs_in env user_data credentials w u w' :
  register_user env user_data credentials w = (Ok u, w') →
  User.role u = UserCreate.role user_data
  ∧ users (db w')
    = (users (db w)
       ++ [User_dict u (Some (get_password_hash env (UserCreate.password user_data)))])%list
  ∧ ∀ password w0 w2,
      db w0 = db w' → rtc (step env) w0 w2 →
      login env (UserLogin.mk (UserCreate.email user_data) password) w2
      = if decide (get_password_hash env password
                   = get_password_hash env (UserCreate.password user_data))
        then (Ok (Token.mk
                    (jwt_encode env (User.id u)
                       (wall_clock env (clock_reads w2)
                        + timedelta_minutes ACCESS_TOKEN_EXPIRE_MINUTES))
                    "bearer" u),
              tick w2)
        else (Raise (HTTPException HTTP_401_UNAUTHORIZED "Incorrect email or password"),
              w2).
Proof.
  intros Ha.
  destruct (require_role env [UserRole.SUPERADMIN; UserRole.SUBADMIN] credentials w)
    as [[caller|e] w1] eqn:Hg.
  2:{ unfold register_user in Ha. by rewrite (bind_Raise _ _ _ _ _ Hg) in Ha. }
  rewrite (register_user_cases _ _ _ _ _ _ Hg) in Ha.
  destruct (list_find _ _) as [[??]|] eqn:Hf; [done|].
  injection Ha as <- <-. simpl. split_and!; [done..|].
  intros password w0 w2 Hdb Hsteps.
  destruct (later_users _ _ _ Hsteps) as [later Hu].
  rewrite Hdb in Hu. unfold with_users, insert_one in Hu. cbn [users db] in Hu.
  unfold login, bind, query. cbn [UserLogin.email UserLogin.password]. rewrite Hu.
  erewrite list_find_app_l by (by apply list_find_snoc).
  cbn [UserDoc.hashed_password User_dict]. unfold verify_password.
  destruct (decide _) as [Heq|Hne].
  - rewrite bool_decide_eq_true_2 by done. reflexivity.
  - rewrite bool_decide_eq_false_2 by done. reflexivity.
Qed.

Lemma registered_user_logs_in_witness :
  let env := scenario_env 1 in
  let w := (run env [Startup] initial_world).2 in
  let out := register_user env teacher_data admin_id w in
  out.1 = Ok (scenario_teacher 1)
  ∧ login env (UserLogin.mk "teacher@school.com" "teacher123") out.2
    = (Ok (Token.mk teacher_id "bearer" (scenario_teacher 1)), tick out.2)
  ∧ login env (UserLogin.mk "teacher@school.com" "guess") out.2
    = (Raise (HTTPException HTTP_401_UNAUTHORIZED "Incorrect email or password"), out.2).
Proof.
  cbv zeta.
  assert (register_user (scenario_env 1) teacher_data admin_id
            (run (scenario_env 1) [Startup] initial_world).2
          = (Ok (scenario_teacher 1),
             (register_user (scenario_env 1) teacher_data admin_id
                (run (scenario_env 1) [Startup] initial_world).2).2)) as Ha
    by (vm_compute; reflexivity).
  split; [vm_compute; reflexivity|].
  destruct (registered_user_logs_in _ _ _ _ _ _ Ha) as (_ & _ & Hl).
  split.
  - etrans; [exact (Hl "teacher123" _ _ eq_refl (rtc_refl _ _))|]. reflexivity.
  - etrans; [exact (Hl "guess" _ _ eq_refl (rtc_refl _ _))|]. reflexivity.
Defined.

(** X5: in a reachable world, after [add_student] stored a learner, in every
    later world [student_login] with the learner's email succeeds exactly
    for the roll number that was submitted, returning a bearer token for
    the learner's id, and answers 401 for any other roll number (for every
    roll number when none was submitted). *)
Theorem added_student_logs_in_by_roll env student_data credentials w u w' :
  reachable env w →
  add_student env student_data credentials w = (Ok u, w') →
  ∀ roll w0 w2,
    db w0 = db w' → rtc (step env) w0 w2 →
    student_login env (StudentLogin.mk roll (UserCreate.email student_data)) w2
    = if decide (UserCreate.roll_no student_data = Some roll)
      then (Ok (Token.mk
                  (jwt_encode env (User.id u)
                     (wall_clock env (clock_reads w2)
                      + timedelta_minutes ACCESS_TOKEN_EXPIRE_MINUTES))
                  "bearer" u),
            tick w2)
      else (Raise (HTTPException HTTP_401_UNAUTHORIZED "Invalid roll number or email"),
            w2).
Proof.
  intros Hr Ha roll w0 w2 Hdb Hsteps.
  assert (store_inv env (db w2)) as Hinv.
  { eapply steps_inv; [|done]. rewrite Hdb.
    pose proof (handle_writes env (AddStudent student_data credentials) w) as Hw.
    unfold handle in Hw. rewrite respond_snd, Ha in Hw.
    eapply write_inv; [done|]. by apply reachable_inv. }
  destruct (require_role env [UserRole.CLASS_TEACHER] credentials w)
    as [[teacher|e] w1] eqn:Hg.
  2:{ unfold add_student in Ha. by rewrite (bind_Raise _ _ _ _ _ Hg) in Ha. }
  rewrite (add_student_cases _ _ _ _ _ _ Hg) in Ha.
  destruct (list_find _ _) as [[??]|] eqn:Hf; [done|].
  injection Ha as <- <-.
  destruct (later_users _ _ _ Hsteps) as [later Hu].
  rewrite Hdb in Hu. unfold with_users, insert_one in Hu. cbn [users db] in Hu.
  set (u := User.mk _ _ _ _ _ _ _ _ _ _) in *.
  set (doc := User_dict u None) in *.
  assert (users (db w2) !! length (users (db w)) = Some doc) as Hdoc.
  { rewrite Hu. apply lookup_app_l_Some. by rewrite lookup_app_r, Nat.sub_diag. }
  assert (∀ i d, users (db w2) !! i = Some d →
                 UserDoc.email d = UserCreate.email student_data → d = doc) as Honly.
  { intros i d Hi He. destruct Hinv as [_ Hnd _ _ _ _ _]. unfold emails_unique in Hnd.
    assert (i = length (users (db w))) as ->.
    { eapply NoDup_lookup; [exact Hnd|..]; rewrite list_lookup_fmap.
      - by rewrite Hi; simpl; rewrite He.
      - by rewrite Hdoc. }
    congruence. }
  unfold student_login, bind, query.
  cbn [StudentLogin.roll_no StudentLogin.email].
  destruct (list_find _ (users (db w2))) as [[i d]|] eqn:Hfind.
  - apply list_find_Some in Hfind as (Hi & (Hroll & He & _) & _).
    rewrite (Honly i d Hi He) in *. clear d Hi He.
    simpl in Hroll. rewrite decide_True by congruence.
    unfold create_access_token, bind, now, ret. reflexivity.
  - rewrite list_find_None, Forall_forall in Hfind.
    rewrite decide_False; [done|]. intros Heq.
    apply (Hfind doc); [by eapply list_elem_of_lookup_2|].
    simpl. by rewrite Heq.
Qed.

Lemma added_student_logs_in_by_roll_witness :
  let env := scenario_env 1 in
  let w := after_registration 1 in
  let out := add_student env student_data teacher_id w in
  out.1 = Ok (scenario_student 1)
  ∧ student_login env (StudentLogin.mk "CS0001" "student@school.com") out.2
    = (Ok (Token.mk student_id "bearer" (scenario_student 1)), tick out.2)
  ∧ student_login env (StudentLogin.mk "CS0002" "student@school.com") out.2
    = (Raise (HTTPException HTTP_401_UNAUTHORIZED "Invalid roll number or email"), out.2).
Proof.
  cbv zeta.
  assert (reachable (scenario_env 1) (after_registration 1)) as Hr
    by (apply run_reachable, rtc_refl).
  assert (add_student (scenario_env 1) student_data teacher_id (after_registration 1)
          = (Ok (scenario_student 1),
             (add_student (scenario_env 1) student_data teacher_id
                (after_registration 1)).2)) as Ha
    by (vm_compute; reflexivity).
  split; [vm_compute; reflexivity|].
  pose proof (added_student_logs_in_by_roll _ _ _ _ _ _ Hr Ha) as Hl.
  split.
  - etrans; [exact (Hl "CS0001" _ _ eq_refl (rtc_refl _ _))|]. reflexivity.
  - etrans; [exact (Hl "CS0002" _ _ eq_refl (rtc_refl _ _))|]. reflexivity.
Defined.

(** ** Verification of a code *)







(** ** Attendance records, classes and departments *)

(** X9: in every reachable world an attendance record names a stored
    student account of the record's class, repeats the class, teacher and
    subject of a stored session, has status "present", and is backed by a
    consumed challenge of that student for that session. *)
Theorem attendance_records_are_consistent env w a :
  reachable env w →
  a ∈ attendance (db w) →
  record_ok (db w) a
  ∧ ∃ c, c ∈ otp_requests (db w)
         ∧ OTPRequest.student_id c = Attendance.student_id a
         ∧ OTPRequest.qr_session_id c = Attendance.qr_session_id a
         ∧ OTPRequest.verified c = true.
Proof.
  intros Hr Ha. destruct (reachable_inv env w Hr) as [_ _ _ _ _ Hrec Hcount].
  split; [by eapply Forall_forall in Hrec|].
  specialize (Hcount (Attendance.student_id a) (Attendance.qr_session_id a)).
  assert (a ∈ records_of (Attendance.student_id a) (Attendance.qr_session_id a) (db w))
    as Hin by (by apply list_elem_of_filter).
  destruct (consumed_of _ _ _) as [|c l] eqn:Hc.
  { destruct (records_of _ _ _); [by apply elem_of_nil in Hin|done]. }
  assert (c ∈ consumed_of (Attendance.student_id a) (Attendance.qr_session_id a) (db w))
    as [(? & ? & ?) ?]%list_elem_of_filter by (rewrite Hc; by left).
  by exists c.
Qed.

Lemma attendance_records_are_consistent_witness :
  ∃ a, attendance (db (after_verify 1)) = [a]
       ∧ record_ok (db (after_verify 1)) a
       ∧ Attendance.student_id a = student_id
       ∧ Attendance.class_id a = "CS-101".
Proof.
  eexists. split; [vm_compute; reflexivity|]. split_and!; [|reflexivity..].
  refine (proj1 (attendance_records_are_consistent (scenario_env 1) (after_verify 1) _
                   (run_reachable _ _ _ (rtc_refl _ _)) _)).
  apply list_elem_of_In. vm_compute. left. reflexivity.
Defined.



(** X11: every class that [get_classes] lists in a reachable world belongs
    to a department that [get_departments] lists then and in every later
    world. *)
Theorem listed_class_has_listed_department env w credentials cs w1 c :
  reachable env w →
  get_classes env credentials w = (Ok cs, w1) →
  c ∈ cs →
  ∀ w2 credentials2 ds w3,
    rtc (step env) w w2 →
    get_departments env credentials2 w2 = (Ok ds, w3) →
    ∃ dep, dep ∈ ds ∧ Department.id dep = Class.department_id c.
Proof.
  intros Hr Hc Hin w2 credentials2 ds w3 Hsteps Hd.
  destruct (reachable_inv env w Hr) as [_ _ _ Hcl _ _ _].
  unfold get_classes, bind, query, ret in Hc.
  destruct (get_current_user env credentials w) as [[u|e] wu] eqn:Hu; [|done].
  pose proof (get_current_user_world _ _ _ _ _ Hu) as ->.
  simpl in Hc. injection Hc as <- _.
  unfold get_departments, bind, query, ret in Hd.
  destruct (get_current_user env credentials2 w2) as [[u2|e] wu2] eqn:Hu2; [|done].
  pose proof (get_current_user_world _ _ _ _ _ Hu2) as ->.
  simpl in Hd. injection Hd as <- _.
  eapply Forall_forall in Hcl as (dep & Hdep & Hid); [|done].
  exists dep. split; [|done].
  apply steps_grow in Hsteps as [_ [later ->] _ _ _ _ _].
  apply elem_of_app. by left.
Qed.

Lemma listed_class_has_listed_department_witness :
  ∃ c ds,
    (get_classes (scenario_env 1) subadmin_id (after_campus 1)).1 = Ok [c]
    ∧ (get_departments (scenario_env 1) admin_id (after_campus 1)).1 = Ok ds
    ∧ ∃ dep, dep ∈ ds ∧ Department.id dep = Class.department_id c.
Proof.
  eexists _, _. split; [vm_compute; reflexivity|]. split; [vm_compute; reflexivity|].
  refine (listed_class_has_listed_department (scenario_env 1) (after_campus 1)
            subadmin_id _ (tick (after_campus 1)) _
            (run_reachable _ _ _ (rtc_refl _ _)) _ _
            (after_campus 1) admin_id _ (tick (after_campus 1)) (rtc_refl _ _) _).
  - vm_compute. reflexivity.
  - by left.
  - vm_compute. reflexivity.
Defined.



(** X13: the department that [create_department] returns carries the given
    name; in every later world [get_departments] lists it, and
    [create_class] for its id by a subadmin succeeds. *)
Theorem created_department_is_usable env name credentials w d w' :
  create_department env name credentials w = (Ok d, w') →
  Department.name d = name
  ∧ ∀ w0 w2, db w0 = db w' → rtc (step env) w0 w2 →
      (∀ credentials2 ds w3,
         get_departments env credentials2 w2 = (Ok ds, w3) → d ∈ ds)
      ∧ ∀ cname credentials2 subadmin w3,
          require_role env [UserRole.SUBADMIN] credentials2 w2 = (Ok subadmin, w3) →
          ∃ c, (create_class env cname (Department.id d) credentials2 w2).1 = Ok c
               ∧ Class.department_id c = Department.id d.
Proof.
  intros Hc.
  destruct (require_role env [UserRole.SUPERADMIN] credentials w) as [[u|e] w1] eqn:Hg.
  2:{ unfold create_department in Hc. by rewrite (bind_Raise _ _ _ _ _ Hg) in Hc. }
  rewrite (create_department_cases _ _ _ _ _ _ Hg) in Hc. cbv zeta in Hc.
  injection Hc as Hdd Hww. split; [by rewrite <- Hdd|].
  intros w0 w2 Hdb Hsteps.
  apply steps_grow in Hsteps as [_ [later Hd] _ _ _ _ _].
  rewrite Hdb, <- Hww in Hd. cbn [db departments with_departments] in Hd.
  unfold insert_one in Hd. rewrite Hdd in Hd.
  assert (d ∈ departments (db w2)) as Hin.
  { rewrite Hd. apply elem_of_app. left. apply elem_of_app. right. by left. }
  split.
  - intros credentials2 ds w3 Hl.
    unfold get_departments, bind, query, ret in Hl.
    destruct (get_current_user env credentials2 w2) as [[u2|e] wu2] eqn:Hu2; [|done].
    pose proof (get_current_user_world _ _ _ _ _ Hu2) as ->.
    simpl in Hl. by injection Hl as <- _.
  - intros cname credentials2 subadmin w3 Hg2.
    rewrite (create_class_cases _ _ _ _ _ _ _ Hg2).
    destruct (list_find _ (departments _)) as [[k dep]|] eqn:Hf.
    + by eexists.
    + apply list_find_None in Hf. rewrite Forall_forall in Hf. by destruct (Hf d).
Qed.

Lemma created_department_is_usable_witness :
  let env := scenario_env 1 in
  let w := (run env [Startup] initial_world).2 in
  let out := create_department env "Computer Science" admin_id w in
  ∃ d, out.1 = Ok d
       ∧ Department.name d = "Computer Science"
       ∧ ∀ ds w3, get_departments env admin_id out.2 = (Ok ds, w3) → d ∈ ds.
Proof.
  cbv zeta. eexists. split; [vm_compute; reflexivity|].
  assert (create_department (scenario_env 1) "Computer Science" admin_id
            (run (scenario_env 1) [Startup] initial_world).2
          = (Ok (Department.mk department_id "Computer Science" 2000000 admin_id),
             (create_department (scenario_env 1) "Computer Science" admin_id
                (run (scenario_env 1) [Startup] initial_world).2).2)) as Hc
    by (vm_compute; reflexivity).
  destruct (created_department_is_usable _ _ _ _ _ _ Hc) as (Hname & Hlater).
  split; [exact Hname|].
  intros ds w3. exact (proj1 (Hlater _ _ eq_refl (rtc_refl _ _)) admin_id ds w3).
Defined.

(** ** Listings and reports *)

(** X14: behind the teacher gate, [get_students] changes nothing and
    returns the stored student accounts, in storage order: all of them for
    a subject teacher, and for a class teacher those whose class is the
    teacher's own (a student without class for a teacher without class). *)
Theorem get_students_lists_the_class env credentials teacher w w1 :
  require_role env [UserRole.CLASS_TEACHER; UserRole.SUB_TEACHER] credentials w
  = (Ok teacher, w1) →
  ∃ l, get_students env credentials w = (Ok l, w1)
       ∧ db w1 = db w
       ∧ l = User_of_doc <$>
               filter (λ d, UserDoc.role d = UserRole.STUDENT
                            ∧ (User.role teacher = UserRole.CLASS_TEACHER →
                               User.class_id (User_of_doc d) = User.class_id teacher))
                      (users (db w))
       ∧ ∀ u, u ∈ l → User.role u = UserRole.STUDENT
                      ∧ (User.role teacher = UserRole.CLASS_TEACHER →
                         User.class_id u = User.class_id teacher).
Proof.
  intros Hg. pose proof (require_role_world _ _ _ _ _ _ Hg) as Hw.
  eexists. split.
  { unfold get_students. rewrite (bind_Ok _ _ _ _ _ Hg). reflexivity. }
  assert (db w1 = db w) as -> by (by rewrite Hw).
  split; [done|].
  assert (filter (students_query teacher) (users (db w))
          = filter (λ d, UserDoc.role d = UserRole.STUDENT
                         ∧ (User.role teacher = UserRole.CLASS_TEACHER →
                            User.class_id (User_of_doc d) = User.class_id teacher))
                   (users (db w))) as Heq.
  { apply list_filter_iff. intros d. unfold students_query. simpl.
    destruct (decide _) as [Hr|Hr]; [|tauto].
    assert (mongo_eq (User.class_id teacher) (UserDoc.class_id d)
            ↔ default None (UserDoc.class_id d) = User.class_id teacher) as ->; [|tauto].
    unfold mongo_eq. destruct (User.class_id teacher), (UserDoc.class_id d) as [[?|]|];
      simpl; split; congruence. }
  split; [by rewrite Heq|].
  intros u (d & -> & Hd)%list_elem_of_fmap.
  rewrite Heq in Hd. by apply list_elem_of_filter in Hd as [[??] _].
Qed.

Lemma get_students_lists_the_class_witness :
  get_students (scenario_env 1) teacher_id (after_student 1)
  = (Ok [scenario_student 1], tick (after_student 1)).
Proof.
  assert (require_role (scenario_env 1) [UserRole.CLASS_TEACHER; UserRole.SUB_TEACHER]
            teacher_id (after_student 1)
          = (Ok (scenario_teacher 1), tick (after_student 1))) as Hg
    by (vm_compute; reflexivity).
  destruct (get_students_lists_the_class _ _ _ _ _ Hg) as (l & -> & _ & -> & _).
  vm_compute. reflexivity.
Defined.




(** ** Tokens and schedules *)

Lemma issued_token env w tok w' :
  (∃ c, login env c w = (Ok tok, w')) ∨ (∃ c, student_login env c w = (Ok tok, w')) →
  ∃ i d, users (db w) !! i = Some d
         ∧ tok = Token.mk (jwt_encode env (UserDoc.id d)
                             (wall_clock env (clock_reads w)
                              + timedelta_minutes ACCESS_TOKEN_EXPIRE_MINUTES))
                          "bearer" (User_of_doc d)
         ∧ w' = tick w.
Proof.
  intros [[c H]|[c H]]; revert H.
  - unfold login, bind, query, create_access_token, now, raise, ret. simpl.
    destruct (list_find _ _) as [[i d]|] eqn:Hf; [|done].
    destruct (UserDoc.hashed_password d); [|done].
    destruct (verify_password _ _ _); [|done].
    intros [= <- <-]. apply list_find_Some in Hf as (Hi & _). by exists i, d.
  - unfold student_login, bind, query, create_access_token, now, raise, ret. simpl.
    destruct (list_find _ _) as [[i d]|] eqn:Hf; [|done].
    intros [= <- <-]. apply list_find_Some in Hf as (Hi & _). by exists i, d.
Qed.

(** X16: a token issued by [login] or [student_login] authenticates its
    user: provided the JWT library decodes what it encoded until the expiry
    and user ids are distinct at the time of the login,
    [get_current_user_info] with the token returns the very user the login
    returned, in every later world whose clock reads before the token's
    expiry of 1440 minutes. *)
Theorem issued_token_authenticates env w tok w' :
  (∀ sub exp t, t < exp → jwt_decode env (jwt_encode env sub exp) t = Some (Some sub)) →
  NoDup (UserDoc.id <$> users (db w)) →
  (∃ c, login env c w = (Ok tok, w')) ∨ (∃ c, student_login env c w = (Ok tok, w')) →
  ∀ w0 w2,
    db w0 = db w' → rtc (step env) w0 w2 →
    wall_clock env (clock_reads w2)
    < wall_clock env (clock_reads w) + timedelta_minutes ACCESS_TOKEN_EXPIRE_MINUTES →
    get_current_user_info env (Token.access_token tok) w2 = (Ok (Token.user tok), tick w2).
Proof.
  intros Hjwt Hnd (i & d & Hi & -> & ->)%issued_token w0 w2 Hdb Hsteps Ht.
  unfold get_current_user_info, get_current_user, bind, now. simpl.
  rewrite (Hjwt _ _ _ Ht). unfold bind, query, ret. simpl.
  apply steps_grow in Hsteps as [Hu _ _ _ _ _ _]. rewrite Hdb in Hu. simpl in Hu.
  assert (list_find (λ d0, UserDoc.id d0 = UserDoc.id d) (users (db w)) = Some (i, d))
    as Hf.
  { apply list_find_Some. split_and!; [done..|].
    intros j y Hj Hlt Hid. assert (j = i); [|lia].
    apply (NoDup_lookup _ j i (UserDoc.id d) Hnd); rewrite list_lookup_fmap.
    - rewrite Hj. simpl. by rewrite Hid.
    - by rewrite Hi. }
  by rewrite (list_find_prefix _ _ _ _ _ Hu Hf).
Qed.

Lemma issued_token_authenticates_witness :
  let env := scenario_env 1 in
  let w := after_registration 1 in
  ∃ tok, (login env (UserLogin.mk "teacher@school.com" "teacher123") w).1 = Ok tok
         ∧ get_current_user_info env (Token.access_token tok) (tick w)
           = (Ok (scenario_teacher 1), tick (tick w)).
Proof.
  cbv zeta.
  assert (login (scenario_env 1) (UserLogin.mk "teacher@school.com" "teacher123")
            (after_registration 1)
          = (Ok (Token.mk teacher_id "bearer" (scenario_teacher 1)),
             tick (after_registration 1))) as Hl
    by (vm_compute; reflexivity).
  eexists. split; [by rewrite Hl|].
  refine (issued_token_authenticates (scenario_env 1) (after_registration 1) _ _
            _ _ (or_introl (ex_intro _ _ Hl)) _ _ eq_refl (rtc_refl _ _) _).
  - intros sub exp t _. reflexivity.
  - apply (bool_decide_unpack _). vm_compute. reflexivity.
  - vm_compute. reflexivity.
Defined.

(** X17: the schedule that [create_schedule] returns is listed by
    [get_schedules] in every later world, without a filter and under the
    filters of its own class and teacher; and every schedule listed under a
    non-empty class filter is of that class. *)
Theorem created_schedule_is_listed env body credentials w sc w' :
  create_schedule env body credentials w = (Ok sc, w') →
  ∀ w0 w2 class_id teacher_id credentials2 l w3,
    db w0 = db w' → rtc (step env) w0 w2 →
    class_id = None ∨ class_id = Some (Schedule.class_id sc) →
    teacher_id = None ∨ teacher_id = Some (Schedule.teacher_id sc) →
    get_schedules env class_id teacher_id credentials2 w2 = (Ok l, w3) →
    sc ∈ l
    ∧ ∀ c, class_id = Some c → c ≠ "" → Forall (λ s, Schedule.class_id s = c) l.
Proof.
  intros Hc w0 w2 class_id teacher_id credentials2 l w3 Hdb Hsteps Hcl Hte Hl.
  assert (sc ∈ schedules (db w2)) as Hin.
  { apply steps_grow in Hsteps as [_ _ _ [later ->] _ _ _]. rewrite Hdb.
    apply elem_of_app. left. revert Hc. unfold create_schedule.
    destruct (require_role env [UserRole.SUBADMIN] credentials w) as [[u|e] w1] eqn:Hg.
    2:{ by rewrite (bind_Raise _ _ _ _ _ Hg). }
    rewrite (bind_Ok _ _ _ _ _ Hg).
    unfold bind at 1. destruct (Schedule_of_body env body w1) as [[s|e] ws] eqn:Hs; [|done].
    unfold bind, update, ret. simpl. intros [= <- <-]. simpl.
    apply elem_of_app. right. by left. }
  unfold get_schedules, bind, query, ret in Hl.
  destruct (get_current_user env credentials2 w2) as [[u2|e] wu2] eqn:Hu2; [|done].
  pose proof (get_current_user_world _ _ _ _ _ Hu2) as ->.
  simpl in Hl. injection Hl as <- _. split.
  - apply list_elem_of_filter. split; [|done]. unfold schedule_query.
    destruct Hcl as [->| ->], Hte as [->| ->]; simpl; repeat case_decide; done.
  - intros c -> Hne. apply Forall_forall. intros s [Hq _]%list_elem_of_filter.
    unfold schedule_query in Hq. simpl in Hq. rewrite decide_False in Hq by done.
    by destruct Hq.
Qed.

Lemma created_schedule_is_listed_witness :
  let env := scenario_env 1 in
  let w := after_campus 1 in
  let body := ScheduleBody.mk None "CS-101" teacher_id "Mathematics" "09:00" "10:00"
                              "Monday" None in
  let out := create_schedule env body subadmin_id w in
  ∃ sc, out.1 = Ok sc
        ∧ ∀ l w3, get_schedules env (Some "CS-101") None admin_id out.2 = (Ok l, w3) →
                  sc ∈ l ∧ Forall (λ s, Schedule.class_id s = "CS-101") l.
Proof.
  cbv zeta. eexists. split; [vm_compute; reflexivity|].
  assert (∃ w',
            create_schedule (scenario_env 1)
              (ScheduleBody.mk None "CS-101" teacher_id "Mathematics" "09:00" "10:00"
                               "Monday" None) subadmin_id (after_campus 1)
            = (Ok (Schedule.mk "00000000-0000-4000-8000-000000000004" "CS-101" teacher_id
                               "Mathematics" "09:00" "10:00" "Monday" 8000000), w')
            ∧ (create_schedule (scenario_env 1)
                 (ScheduleBody.mk None "CS-101" teacher_id "Mathematics" "09:00" "10:00"
                                  "Monday" None) subadmin_id (after_campus 1)).2 = w')
    as (w' & Hc & ->) by (eexists; split; vm_compute; reflexivity).
  intros l w3 Hl.
  destruct (created_schedule_is_listed _ _ _ _ _ _ Hc _ _ _ _ _ _ _
              eq_refl (rtc_refl _ _) (or_intror eq_refl) (or_introl eq_refl) Hl)
    as [Hin Hall].
  split; [exact Hin|]. by apply (Hall "CS-101").
Defined.

(** ** The log and the queue *)

Lemma run_tasks_log tasks w :
  log (run_tasks tasks w) = (log w ++ ((λ t, email_line t.1 t.2) <$> tasks))%list
  ∧ background_tasks (run_tasks tasks w) = background_tasks w.
Proof.
  revert w. induction tasks as [|[email otp] rest IH]; intros w.
  { simpl. by rewrite app_nil_r. }
  cbn [run_tasks]. destruct (IH (send_otp_email email otp w).2) as [-> ->].
  split; [|done]. cbn [fmap list_fmap fst snd]. unfold send_otp_email, bind, logger_info, ret.
  cbn [snd log]. by rewrite <- app_assoc.
Qed.

Lemma code_of_alter (i : nat) (l : list OTPRequest.t) :
  code_of <$> alter OTPRequest.set_verified i l = code_of <$> l.
Proof.
  revert i. induction l as [|c l IH]; intros [|i]; simpl; try done.
  f_equal. apply IH.
Qed.

Lemma get_attendance_report_world env class_id start_date end_date credentials w :
  (get_attendance_report env class_id start_date end_date credentials w).2 = tick w.
Proof.
  unfold get_attendance_report. gate env Hg; [|done].
  unfold bind at 1.
  destruct (match truthy start_date with _ => _ end (tick w)) as [[range|e] w2] eqn:Hr.
  - assert (w2 = tick w) as ->.
    { revert Hr. unfold ret, raise. repeat case_match; by intros [= _ <-]. }
    unfold bind, query.
    pose proof (enrich_all_world
      (filter (report_query class_id range current_user) (attendance (db (tick w))))
      (tick w)) as He.
    by destruct (enrich_all _ _) as [[?|?] ?].
  - revert Hr. unfold ret, raise. repeat case_match; by intros [= _ <-].
Qed.

Ltac no_mail := right; right; simpl; split_and!; done.

(** What a handler does to the log, to the queue and to the challenges,
    started with an empty queue. *)
Lemma handle_mail env r w :
  background_tasks w = [] →
  let w' := (handle env r w).2 in
  (log w' = (log w ++ [admin_line])%list
   ∧ background_tasks w' = []
   ∧ Forall (λ d, UserDoc.role d ≠ UserRole.SUPERADMIN) (users (db w))
   ∧ users (db w') ≠ []
   ∧ otp_requests (db w') = otp_requests (db w))
  ∨ (log w' = log w
     ∧ ∃ j d c,
         list_find (λ d, UserDoc.id d = OTPRequest.student_id c) (users (db w))
         = Some (j, d)
         ∧ users (db w') = users (db w)
         ∧ otp_requests (db w') = (otp_requests (db w) ++ [c])%list
         ∧ background_tasks w' = [(UserDoc.email d, OTPRequest.otp c)]
         ∧ ∃ a, (handle env r w).1 = Ok a)
  ∨ (log w' = log w
     ∧ background_tasks w' = []
     ∧ code_of <$> otp_requests (db w') = code_of <$> otp_requests (db w)
     ∧ (users (db w) = [] → users (db w') = [])).
Proof.
  destruct w as [s cr ud rd bt lg]. simpl. intros ->.
  destruct r; unfold handle; rewrite ?respond_snd, ?respond_fst.
  - unfold create_default_admin. steps.
    destruct (list_find _ _) as [[??]|] eqn:Hf; simpl; [no_mail|].
    left. split_and!; try done.
    + by apply list_find_None_Forall in Hf.
    + unfold insert_one. by destruct (users s).
  - unfold root. steps. no_mail.
  - destruct (require_role env [UserRole.SUPERADMIN; UserRole.SUBADMIN] credentials
                (mkWorld s cr ud rd [] lg)) as [[u|e] w1] eqn:Hg.
    2:{ unfold register_user. rewrite (bind_Raise _ _ _ _ _ Hg).
        apply require_role_world in Hg as ->. no_mail. }
    rewrite (register_user_cases _ _ _ _ _ _ Hg).
    pose proof (require_role_find _ _ _ _ _ _ Hg) as (j & d & _ & _ & _ & Hd).
    apply require_role_world in Hg as ->.
    destruct (list_find _ _) as [[??]|] eqn:Hf; [no_mail|].
    right; right. simpl in *. split_and!; try done.
    intros Hn. rewrite Hn in Hd. by apply elem_of_nil in Hd.
  - unfold login, create_access_token. steps. repeat branch; no_mail.
  - unfold student_login, create_access_token. steps. repeat branch; no_mail.
  - unfold get_current_user_info.
    destruct (get_current_user _ _ _) as [? w1] eqn:Hg.
    apply get_current_user_world in Hg as ->. no_mail.
  - unfold create_department. gate env Hg; [|no_mail]. steps. no_mail.
  - unfold get_departments. gate env Hg; [|no_mail]. steps. no_mail.
  - unfold create_class. gate env Hg; [|no_mail]. steps. repeat branch; no_mail.
  - unfold get_classes. gate env Hg; [|no_mail]. steps. no_mail.
  - unfold create_schedule. gate env Hg; [|no_mail]. steps. repeat branch; no_mail.
  - unfold get_schedules. gate env Hg; [|no_mail]. steps. no_mail.
  - unfold generate_qr_session. gate env Hg; [|no_mail]. steps. repeat branch; no_mail.
  - destruct (require_role env [UserRole.STUDENT] credentials (mkWorld s cr ud rd [] lg))
      as [[u|e] w1] eqn:Hg.
    2:{ unfold scan_qr_code. rewrite (bind_Raise _ _ _ _ _ Hg).
        apply require_role_world in Hg as ->. no_mail. }
    destruct (scan_qr_code_cases env qr_session_id _ _ _ _ Hg) as (otp & _ & _ & Hs).
    pose proof (require_role_find _ _ _ _ _ _ Hg) as (j & d & Hfu & -> & _ & _).
    apply require_role_world in Hg as ->.
    rewrite (bind_Ok _ _ _ _ _ Hs) || rewrite Hs. clear Hs. simpl in *.
    destruct (list_find _ (qr_sessions _)) as [[k q]|]; [|no_mail].
    destruct (decide _); [no_mail|].
    destruct (decide _); [no_mail|].
    destruct (list_find _ (attendance _)) as [[??]|]; [no_mail|].
    right; left. simpl. split; [done|]. eexists j, d, _.
    split_and!; [|reflexivity|reflexivity|reflexivity|by eexists]. exact Hfu.
  - destruct (require_role env [UserRole.STUDENT] credentials (mkWorld s cr ud rd [] lg))
      as [[u|e] w1] eqn:Hg.
    2:{ unfold verify_otp. rewrite (bind_Raise _ _ _ _ _ Hg).
        apply require_role_world in Hg as ->. no_mail. }
    rewrite (verify_otp_cases _ _ _ _ _ _ Hg).
    apply require_role_world in Hg as ->. simpl.
    destruct (list_find _ s.(otp_requests)) as [[i c]|]; [|no_mail].
    destruct (decide _); [no_mail|].
    destruct (list_find _ s.(qr_sessions)) as [[k q]|]; [|no_mail].
    right; right. simpl. split_and!; try done. apply code_of_alter.
  - destruct (require_role env [UserRole.CLASS_TEACHER] credentials
                (mkWorld s cr ud rd [] lg)) as [[u|e] w1] eqn:Hg.
    2:{ unfold add_student. rewrite (bind_Raise _ _ _ _ _ Hg).
        apply require_role_world in Hg as ->. no_mail. }
    rewrite (add_student_cases _ _ _ _ _ _ Hg).
    pose proof (require_role_find _ _ _ _ _ _ Hg) as (j & d & _ & _ & _ & Hd).
    apply require_role_world in Hg as ->.
    destruct (list_find _ _) as [[??]|] eqn:Hf; [no_mail|].
    right; right. simpl in *. split_and!; try done.
    intros Hn. rewrite Hn in Hd. by apply elem_of_nil in Hd.
  - unfold get_students. gate env Hg; [|no_mail]. steps. no_mail.
  - rewrite get_attendance_report_world. no_mail.
  - unfold get_dashboard_data. gate env Hg; [|no_mail]. steps. repeat branch; no_mail.
Qed.

Lemma expected_log_lines s s' :
  users s `prefix_of` users s' →
  (users s = [] → users s' = []) →
  Forall (challenge_ok s) (otp_requests s) →
  code_of <$> otp_requests s' = code_of <$> otp_requests s →
  expected_log s' = expected_log s.
Proof.
  intros Hp Hn Hch Hcodes. unfold expected_log. f_equal.
  { destruct (users s) as [|d l]; [by rewrite Hn|].
    destruct Hp as [k ->]. done. }
  change (λ c, email_line (email_of s' (OTPRequest.student_id c)) (OTPRequest.otp c))
    with ((λ p, email_line (email_of s' p.1) p.2) ∘ code_of).
  rewrite (list_fmap_compose code_of), Hcodes, <- list_fmap_compose.
  apply Forall_fmap_ext_1. eapply Forall_impl; [exact Hch|].
  intros c (j & d & _ & _ & Hf & _). simpl. f_equal.
  unfold email_of. by rewrite (list_find_prefix _ _ _ _ _ Hp Hf), Hf.
Qed.

Lemma step_mail env w w' :
  store_inv env (db w) →
  log w = expected_log (db w) ∧ background_tasks w = [] →
  step env w w' →
  log w' = expected_log (db w') ∧ background_tasks w' = [].
Proof.
  intros [Hadmin _ _ _ Hch _ _] [Hlog Hq] [r <-].
  pose proof (write_grows _ _ _ (handle_writes env r w)) as [Hp _ _ _ _ _ _].
  pose proof (handle_mail env r w Hq) as Hm. cbv zeta in Hm.
  unfold serve. destruct (handle env r w) as [x w1]. simpl in Hm, Hp.
  destruct Hm as [(Hl & Hb & Hno & Hne & Ho)|[(Hl & j & d & c & Hf & Hu & Ho & Hb & a & Ha)
                                             |(Hl & Hb & Hcodes & Hn)]].
  - assert (users (db w) = []) as Hnil.
    { destruct Hadmin as [?|(n & t & H0)]; [done|].
      rewrite Forall_forall in Hno.
      by destruct (Hno _ (list_elem_of_lookup_2 _ _ _ H0)). }
    assert (otp_requests (db w) = []) as Hnone.
    { destruct (otp_requests (db w)) as [|c l]; [done|].
      apply Forall_cons in Hch as [(j & d & _ & _ & Hf & _) _].
      by rewrite Hnil in Hf. }
    assert (log w1 = expected_log (db w1)) as Hl1.
    { rewrite Hl, Hlog. unfold expected_log. rewrite Ho, Hnil, Hnone. simpl.
      by destruct (users (db w1)). }
    destruct x; simpl; [|done]. by rewrite Hb.
  - simpl in Ha. subst x. simpl.
    destruct (run_tasks_log (background_tasks w1) (clear_tasks w1)) as [-> ->].
    destruct (run_tasks_frame (background_tasks w1) (clear_tasks w1)) as [-> _].
    split; [|done]. simpl. rewrite Hb, Hl, Hlog. unfold expected_log.
    rewrite Ho, Hu, fmap_app, app_assoc. simpl.
    assert (∀ id, email_of (db w1) id = email_of (db w) id) as He
      by (intros id; unfold email_of; by rewrite Hu).
    assert ((λ c, email_line (email_of (db w1) (OTPRequest.student_id c))
                             (OTPRequest.otp c)) <$> otp_requests (db w)
            = (λ c, email_line (email_of (db w) (OTPRequest.student_id c))
                               (OTPRequest.otp c)) <$> otp_requests (db w)) as ->.
    { apply Forall_fmap_ext_1, Forall_true. intros c'. by rewrite He. }
    rewrite He. unfold email_of at 3. by rewrite Hf.
  - assert (log w1 = expected_log (db w1)) as Hl1.
    { rewrite Hl, Hlog. symmetry. by apply expected_log_lines. }
    destruct x; simpl; [|done].
    destruct (run_tasks_log (background_tasks w1) (clear_tasks w1)) as [-> ->].
    destruct (run_tasks_frame (background_tasks w1) (clear_tasks w1)) as [-> _].
    simpl. rewrite Hb. simpl. by rewrite app_nil_r.
Qed.

Lemma reachable_mail env w :
  reachable env w → log w = expected_log (db w) ∧ background_tasks w = [].
Proof.
  unfold reachable. revert w. apply rtc_ind_r; [done|].
  intros y z Hy Hyz IH.
  exact (step_mail env y z (reachable_inv env y Hy) IH Hyz).
Qed.

(** X18: in every reachable world no task is left in the queue and the log
    is accounted for by the store: the startup line once a user is stored,
    then, for every stored challenge in order, one email with its code to
    the address of its student.  Every issued code is mailed exactly once
    and nothing else is ever logged. *)
Theorem every_code_is_mailed_once env w :
  reachable env w →
  background_tasks w = []
  ∧ log w = (match users (db w) with [] => [] | _ => [admin_line] end
             ++ ((λ c, email_line (email_of (db w) (OTPRequest.student_id c))
                                  (OTPRequest.otp c))
                   <$> otp_requests (db w)))%list.
Proof. intros Hr. by destruct (reachable_mail env w Hr). Qed.

Lemma every_code_is_mailed_once_witness :
  let w := (run (scenario_env 1) double_scan initial_world).2 in
  background_tasks w = []
  ∧ log w = [admin_line;
             email_line "student@school.com" "012345";
             email_line "student@school.com" "678901"].
Proof.
  cbv zeta.
  destruct (every_code_is_mailed_once (scenario_env 1)
              (run (scenario_env 1) double_scan initial_world).2
              (run_reachable _ _ _ (rtc_refl _ _))) as [Hq Hl].
  split; [exact Hq|]. rewrite Hl. vm_compute. reflexivity.
Defined.

(** ** Who wrote what *)

(** X19: in every reachable world every stored department was created by a
    stored superadmin, every class by a stored subadmin, and every session
    was opened by a stored class teacher or subject teacher, a class
    teacher only for the class of their own. *)
Theorem every_write_was_authorised env w :
  reachable env w →
  Forall (λ d, authorised (db w) (Department.created_by d) [UserRole.SUPERADMIN])
         (departments (db w))
  ∧ Forall (λ c, authorised (db w) (Class.created_by c) [UserRole.SUBADMIN])
           (classes (db w))
  ∧ Forall (session_ok (db w)) (qr_sessions (db w)).
Proof. intros Hr. by destruct (reachable_provenance env w Hr). Qed.

Lemma every_write_was_authorised_witness :
  authorised (db (after_campus 1)) admin_id [UserRole.SUPERADMIN]
  ∧ authorised (db (after_campus 1)) subadmin_id [UserRole.SUBADMIN].
Proof.
  destruct (every_write_was_authorised (scenario_env 1) (after_campus 1)
              (run_reachable _ _ _ (rtc_refl _ _))) as (Hd & Hc & _).
  assert (∃ d, departments (db (after_campus 1)) = [d]
               ∧ Department.created_by d = admin_id) as (d & Ed & Edb)
    by (eexists; split; vm_compute; reflexivity).
  assert (∃ c, classes (db (after_campus 1)) = [c]
               ∧ Class.created_by c = subadmin_id) as (c & Ec & Ecb)
    by (eexists; split; vm_compute; reflexivity).
  rewrite Ed in Hd. rewrite Ec in Hc.
  apply Forall_cons in Hd as [Hd _]. apply Forall_cons in Hc as [Hc _].
  rewrite Edb in Hd. rewrite Ecb in Hc.
  split; [exact Hd|exact Hc].
Defined.
